(** * setup-jdk installer: a shallow embedding of [src/installer.ts]

    The development follows the source file top-down: the pure helpers of the
    Spec Resolver ([getOsString], [getFeatureVersion], [getReleaseType],
    [getAdoptOpenJdkUrl]), the Cache Key Builder ([getCacheVersionSpec]), the
    Retrying Fetcher ([retry]), the Archive Extractor ([extractFiles]), the
    Post-Extract Normalizer ([unpackJars], [getJdkDirectory],
    [unzipJavaDownload]) and the pipeline ([downloadJavaBinary]).

    Conventions of the model.
    - A JavaScript string is a [string]: the sequence of its bytes in UTF-8.
      The literals of the source are ASCII, and an ASCII pattern occurs in the
      UTF-8 bytes exactly where it occurs in the UTF-16 code units.
    - A JavaScript number that the source uses as a counter or as a number of
      milliseconds is a [Z].
    - Effects are explicit: a computation takes the state of the outside world
      and returns an outcome, the new world and the events it emitted.
    - The two recursive functions of the source, [retry] and [unpackJars],
      recurse on no argument that decreases; the model gives them a number of
      [steps], and a run that needs more ends [Pending]. *)

From Stdlib Require Import String Ascii List ZArith Lia Bool Arith DecimalString.
Import ListNotations.
Local Open Scope string_scope.

Set Implicit Arguments.

(** ** JavaScript strings *)

Module Js.

(** [s.slice(n)] for [0 <= n]. *)
Fixpoint drop (n : nat) (s : string) : string :=
  match n, s with
  | O, _ => s
  | S _, EmptyString => EmptyString
  | S n', String _ s' => drop n' s'
  end.

(** [s.startsWith(p)]. *)
Fixpoint startsWith (p s : string) : bool :=
  match p, s with
  | EmptyString, _ => true
  | String _ _, EmptyString => false
  | String a p', String b s' => Ascii.eqb a b && startsWith p' s'
  end.

(** [s.includes(p)]. *)
Fixpoint includes (p s : string) : bool :=
  startsWith p s ||
  match s with
  | EmptyString => false
  | String _ s' => includes p s'
  end.

(** [s.replace(pat, rep)] for a string pattern [pat] and a replacement
    without [$]: only the first occurrence of [pat] is replaced. *)
Fixpoint replace (pat rep s : string) : string :=
  if startsWith pat s then rep ++ drop (String.length pat) s
  else match s with
       | EmptyString => EmptyString
       | String c s' => String c (replace pat rep s')
       end.

(** The characters of a string, and membership of a character. *)
Fixpoint chars (s : string) : list ascii :=
  match s with
  | EmptyString => []
  | String c s' => c :: chars s'
  end.

Definition has_char (c : ascii) (s : string) : bool :=
  existsb (Ascii.eqb c) (chars s).

(** [c.toLowerCase()] on the ASCII letters. *)
Definition lower_char (c : ascii) : ascii :=
  let n := nat_of_ascii c in
  if (65 <=? n)%nat && (n <=? 90)%nat then ascii_of_nat (n + 32) else c.

Fixpoint toLowerCase (s : string) : string :=
  match s with
  | EmptyString => EmptyString
  | String c s' => String (lower_char c) (toLowerCase s')
  end.

(** [String(n)] for an integer [n] below [1e21], where JavaScript prints all
    the digits. *)
Definition of_Z (n : Z) : string := NilZero.string_of_int (Z.to_int n).

(** [String(n)] for an array index [n]. *)
Definition of_nat (n : nat) : string := NilZero.string_of_uint (Nat.to_uint n).

(** A string is truthy when it is not empty. *)
Definition truthy (s : string) : bool :=
  match s with EmptyString => false | _ => true end.

(** *** [encodeURIComponent]

    Every byte of the UTF-8 encoding is escaped as [%XX] (upper-case hex)
    except the unreserved marks [A-Z a-z 0-9 - _ . ! ~ * ' ( )]. *)

Definition unreserved (c : ascii) : bool :=
  let n := nat_of_ascii c in
  ((65 <=? n) && (n <=? 90)
   || (97 <=? n) && (n <=? 122)
   || (48 <=? n) && (n <=? 57))%nat
  || has_char c "-_.!~*'()".

Definition hex_digit (n : nat) : ascii :=
  if (n <? 10)%nat then ascii_of_nat (48 + n) else ascii_of_nat (55 + n).

Definition escape_byte (c : ascii) : string :=
  let n := nat_of_ascii c in
  String "%" (String (hex_digit (n / 16)) (String (hex_digit (n mod 16)) "")).

(** What one byte is encoded to. *)
Definition encoded_byte (c : ascii) : string :=
  if unreserved c then String c "" else escape_byte c.

Fixpoint encodeURIComponent (s : string) : string :=
  match s with
  | EmptyString => EmptyString
  | String c s' => encoded_byte c ++ encodeURIComponent s'
  end.



(** *** The string operations of [getInput] *)

(** [s.replace(/c/g, d)] for single characters [c] and [d]. *)
Fixpoint replaceAll (c d : ascii) (s : string) : string :=
  match s with
  | EmptyString => EmptyString
  | String x s' => String (if Ascii.eqb x c then d else x) (replaceAll c d s')
  end.

(** [c.toUpperCase()] on the ASCII letters. *)
Definition upper_char (c : ascii) : ascii :=
  let n := nat_of_ascii c in
  if (97 <=? n)%nat && (n <=? 122)%nat then ascii_of_nat (n - 32) else c.

Fixpoint toUpperCase (s : string) : string :=
  match s with
  | EmptyString => EmptyString
  | String c s' => String (upper_char c) (toUpperCase s')
  end.

(** Every byte is below 128: on such strings the two case conversions of
    the model are those of JavaScript. *)
Definition is_ascii (s : string) : bool :=
  forallb (fun c => (nat_of_ascii c <? 128)%nat) (chars s).

(** [a || b] on strings. *)
Definition or_else (a b : string) : string := if truthy a then a else b.

Fixpoint of_bytes (bs : list nat) : string :=
  match bs with
  | [] => EmptyString
  | b :: bs' => String (ascii_of_nat b) (of_bytes bs')
  end.

Fixpoint rev_string (s acc : string) : string :=
  match s with
  | EmptyString => acc
  | String c s' => rev_string s' (String c acc)
  end.

(** The white space and the line terminators that [trim] removes, in UTF-8:
    U+0009 to U+000D, U+0020, U+00A0, U+1680, U+2000 to U+200A, U+2028,
    U+2029, U+202F, U+205F, U+3000 and U+FEFF. *)
Definition white_space : list string :=
  map of_bytes
    [ [9]; [10]; [11]; [12]; [13]; [32]; [194; 160]; [225; 154; 128];
      [226; 128; 128]; [226; 128; 129]; [226; 128; 130]; [226; 128; 131];
      [226; 128; 132]; [226; 128; 133]; [226; 128; 134]; [226; 128; 135];
      [226; 128; 136]; [226; 128; 137]; [226; 128; 138]; [226; 128; 168];
      [226; 128; 169]; [226; 128; 175]; [226; 129; 159]; [227; 128; 128];
      [239; 187; 191] ].

(** The rest of [s] after the first of [seqs] that it starts with. *)
Fixpoint strip_one (seqs : list string) (s : string) : option string :=
  match seqs with
  | [] => None
  | q :: seqs' =>
      if startsWith q s then Some (drop (String.length q) s)
      else strip_one seqs' s
  end.

Fixpoint strip_all (n : nat) (seqs : list string) (s : string) : string :=
  match n with
  | O => s
  | S n' =>
      match strip_one seqs s with
      | Some s' => strip_all n' seqs s'
      | None => s
      end
  end.

Definition trimStart (s : string) : string :=
  strip_all (String.length s) white_space s.

Definition trimEnd (s : string) : string :=
  let r := rev_string s "" in
  rev_string
    (strip_all (String.length r) (map (fun q => rev_string q "") white_space) r) "".

(** [s.trim()]. *)
Definition trim (s : string) : string := trimEnd (trimStart s).

End Js.

(** ** Spec Resolver *)

(** [getOsString], lines 33-42. *)
Definition getOsString (platform : string) : string :=
  if platform =? "win32" then "windows"
  else if platform =? "darwin" then "mac"
  else "linux".

(** [getFeatureVersion], lines 44-46. *)
Definition getFeatureVersion (version : string) : string :=
  Js.replace "openjdk" "" version.

(** [getReleaseType], lines 48-57. *)
Definition getReleaseType (release_type : string) : string :=
  if release_type =? "releases" then "ga"
  else if release_type =? "nightly" then "ea"
  else release_type.

(** The two URL templates of [getAdoptOpenJdkUrl]. *)
Definition latest_url (feature_version release_type os arch jvm_impl heap_size : string)
  : string :=
  "https://api.adoptopenjdk.net/v3/binary/latest/" ++ feature_version ++ "/"
    ++ release_type ++ "/" ++ os ++ "/" ++ arch ++ "/jdk/" ++ jvm_impl ++ "/"
    ++ heap_size ++ "/adoptopenjdk".

Definition version_url (release_name os arch jvm_impl heap_size : string) : string :=
  "https://api.adoptopenjdk.net/v3/binary/version/" ++ release_name ++ "/"
    ++ os ++ "/" ++ arch ++ "/jdk/" ++ jvm_impl ++ "/" ++ heap_size
    ++ "/adoptopenjdk".

(** [getAdoptOpenJdkUrl], lines 59-76. *)
Definition getAdoptOpenJdkUrl
  (release_type version jvm_impl os arch heap_size release : string) : string :=
  let feature_version := getFeatureVersion version in
  let release_type_parsed := getReleaseType release_type in
  if release =? "latest" then
    latest_url feature_version release_type_parsed os arch jvm_impl heap_size
  else
    let release_name := Js.encodeURIComponent release in
    version_url release_name os arch jvm_impl heap_size.

(** ** Cache Key Builder *)

(** [getCacheVersionSpec], lines 188-197.  The parameter [os] is not used. *)
Definition getCacheVersionSpec
  (release_type version jvm_impl os heap_size release : string) : string :=
  "1.0.0-" ++ release_type ++ "-" ++ version ++ "-" ++ jvm_impl ++ "-"
    ++ heap_size ++ "-" ++ release.

(** ** The [path] module of the host

    The source calls [path.join], [path.normalize], [path.extname] and
    [path.parse]; which implementation it gets depends on the host.  The
    pipeline is written against this interface, and [Posix] follows the
    implementation that Node gives a POSIX host. *)

Record PathModule : Type := {
  path_join : list string -> string;
  path_normalize : string -> string;
  path_extname : string -> string;
  path_parse_dir : string -> string;
  path_parse_name : string -> string
}.

Module Posix.

(** The segments between the separators. *)
Fixpoint split (s : string) : list string :=
  match s with
  | EmptyString => [EmptyString]
  | String c s' =>
      if Ascii.eqb c "/" then EmptyString :: split s'
      else match split s' with
           | h :: t => String c h :: t
           | [] => [String c EmptyString]
           end
  end.

Definition unsplit (segs : list string) : string := String.concat "/" segs.

(** One step of [normalizeString]: [res] is the stack of kept segments, the
    last one first. *)
Definition push_segment (allowAboveRoot : bool) (res : list string) (seg : string)
  : list string :=
  if (seg =? "") || (seg =? ".") then res
  else if seg =? ".." then
    match res with
    | h :: t => if h =? ".." then seg :: res else t
    | [] => if allowAboveRoot then [seg] else []
    end
  else seg :: res.

Definition normalizeString (p : string) (allowAboveRoot : bool) : string :=
  unsplit (rev (fold_left (push_segment allowAboveRoot) (split p) [])).

Definition endsWithSlash (p : string) : bool :=
  match rev (split p) with
  | last :: _ :: _ => last =? ""
  | _ => false
  end.

Definition normalize (p : string) : string :=
  if p =? "" then "."
  else
    let isAbsolute := Js.startsWith "/" p in
    let trailingSeparator := endsWithSlash p in
    let q := normalizeString p (negb isAbsolute) in
    if q =? "" then
      if isAbsolute then "/" else if trailingSeparator then "./" else "."
    else
      let q' := if trailingSeparator then q ++ "/" else q in
      if isAbsolute then "/" ++ q' else q'.

Definition join (args : list string) : string :=
  let joined := unsplit (filter Js.truthy args) in
  if joined =? "" then "." else normalize joined.

(** The segments without the empty ones that trailing separators leave. *)
Fixpoint drop_trailing_empty (rsegs : list string) : list string :=
  match rsegs with
  | s :: t => if s =? "" then drop_trailing_empty t else rsegs
  | [] => []
  end.

Definition basename (p : string) : string :=
  match drop_trailing_empty (rev (split p)) with
  | b :: _ => b
  | [] => ""
  end.

(** The suffix that starts at the last dot, if there is a dot. *)
Fixpoint last_dot_suffix (s : string) : string :=
  match s with
  | EmptyString => EmptyString
  | String c s' =>
      let r := last_dot_suffix s' in
      if Js.truthy r then r
      else if Ascii.eqb c "." then s else EmptyString
  end.

Definition extname (p : string) : string :=
  let b := basename p in
  if b =? ".." then ""
  else match b with
       | EmptyString => ""
       | String _ b' => last_dot_suffix b'
       end.

Fixpoint take (n : nat) (s : string) : string :=
  match n, s with
  | S n', String c s' => String c (take n' s')
  | _, _ => EmptyString
  end.

Definition parse_name (p : string) : string :=
  let b := basename p in
  take (String.length b - String.length (extname p)) b.

Definition parse_dir (p : string) : string :=
  match drop_trailing_empty (rev (split p)) with
  | _ :: rdir =>
      match rdir with
      | [r] => if r =? "" then "/" else r
      | _ => unsplit (rev rdir)
      end
  | [] => if Js.startsWith "/" p then "/" else ""
  end.

Definition path : PathModule := {|
  path_join := join;
  path_normalize := normalize;
  path_extname := extname;
  path_parse_dir := parse_dir;
  path_parse_name := parse_name
|}.

End Posix.

(** ** Errors, events and the host *)

(** A thrown value: an [Error] made by the program or by a collaborator, or
    the system error of a failed file-system call. *)
Inductive Error : Type :=
| JsError (message : string)
| SystemError (code syscall path : string).

Definition error_message (e : Error) : string :=
  match e with
  | JsError m => m
  | SystemError c sc p =>
      c ++ ": "
        ++ (if c =? "ENOENT" then "no such file or directory"
            else if c =? "ENOTDIR" then "not a directory"
            else if c =? "EACCES" then "permission denied"
            else if c =? "ELOOP" then "too many symbolic links encountered"
            else "unknown error")
        ++ ", " ++ sc ++ " '" ++ p ++ "'"
  end.

(** [String(error)] for an [Error] object. *)
Definition error_toString (e : Error) : string := "Error: " ++ error_message e.

(** What [stat] says of a path: the kind of what the path names, with the
    listing of a directory ([fs.Stats]), or, for [Unstatable], that the call
    fails with the given system error ([ENOTDIR] for a path that runs
    through a regular file, [EACCES], [ELOOP], ...).  That a world has
    nothing for a path, [None], is [ENOENT]: no such file or directory. *)
Inductive Stats : Type :=
| IsFile
| IsDirectory (entries : list string)
| IsOther
| Unstatable (code : string).

Definition isDirectory (s : Stats) : bool :=
  match s with IsDirectory _ => true | _ => false end.

Definition isFile (s : Stats) : bool :=
  match s with IsFile => true | _ => false end.

(** An object is truthy. *)
Definition object_truthy (s : Stats) : bool := true.

(** The asynchronous calls into the collaborators ([@actions/tool-cache],
    [@actions/io], [@actions/exec]). *)
Inductive Command : Type :=
| DownloadTool (url : string)
| ExtractTar (file dest : string)
| ExtractZip (file dest : string)
| Extract7z (file dest : string)
| CacheDir (sourceDir tool version arch : string)
| MkdirP (dir : string)
| Exec (commandLine : string) (args : list string).

(** What an observer of the process sees, in order. *)
Inductive Event : Type :=
| Attempt                          (* [retry] calls [fn]: a mark of the model *)
| Call (c : Command)
| Debug (msg : string)
| Info (msg : string)
| Warning (msg : string)
| SetTimeout (ms : Z)
| ExportVariable (name val : string)
| AddPath (inputPath : string).

(** How a computation ends; [Pending] is a promise that has not settled
    within the steps the model was given. *)
Inductive Outcome (A : Type) : Type :=
| Return (a : A)
| Throw (e : Error)
| Pending.

Arguments Return {A} a.
Arguments Throw {A} e.
Arguments Pending {A}.

Definition is_attempt (e : Event) : bool :=
  match e with Attempt => true | _ => false end.

Definition is_call (e : Event) : bool :=
  match e with Call _ => true | _ => false end.

(** The number of times [fn] was called. *)
Definition attempts (evs : list Event) : nat := List.length (filter is_attempt evs).

Section Installer.

(** The state of everything outside the process: file system, tool cache,
    network, random source. *)
Variable World : Type.

(** [fs.statSync]/[fs.lstatSync] without links: what a path names. *)
Variable fs : World -> string -> option Stats.

(** [tc.find]: synchronous, reads the tool cache, [""] when nothing is cached. *)
Variable tc_find : World -> string -> string -> string -> string.

(** The collaborators: a call resolves with a string or rejects. *)
Variable host : Command -> World -> (Error + string) * World.

(** [Math.floor(Math.random() * n)]. *)
Variable random_below : Z -> World -> Z * World.

(** [process.platform], [process.env] and the [path] module. *)
Variable platform : string.
Variable env : string -> option string.
Variable path : PathModule.

(** *** The monad of the pipeline *)

Definition M (A : Type) : Type := World -> Outcome A * World * list Event.

Definition ret {A} (a : A) : M A := fun w => (Return a, w, []).

Definition throw {A} (e : Error) : M A := fun w => (Throw e, w, []).

Definition pending {A} : M A := fun w => (Pending, w, []).

Definition bind {A B} (m : M A) (k : A -> M B) : M B :=
  fun w =>
    match m w with
    | (Return a, w1, evs1) =>
        match k a w1 with
        | (r, w2, evs2) => (r, w2, (evs1 ++ evs2)%list)
        end
    | (Throw e, w1, evs1) => (Throw e, w1, evs1)
    | (Pending, w1, evs1) => (Pending, w1, evs1)
    end.

(** [try { m } catch (error) { h error }]. *)
Definition try_catch {A} (m : M A) (h : Error -> M A) : M A :=
  fun w =>
    match m w with
    | (Throw e, w1, evs1) =>
        match h e w1 with
        | (r, w2, evs2) => (r, w2, (evs1 ++ evs2)%list)
        end
    | other => other
    end.

Definition emit (e : Event) : M unit := fun w => (Return tt, w, [e]).

Definition read {A} (f : World -> A) : M A := fun w => (Return (f w), w, []).

(** [await] on a call into a collaborator. *)
Definition call (c : Command) : M string :=
  fun w =>
    match host c w with
    | (inr v, w1) => (Return v, w1, [Call c])
    | (inl e, w1) => (Throw e, w1, [Call c])
    end.

Definition random (n : Z) : M Z :=
  fun w => match random_below n w with (r, w1) => (Return r, w1, []) end.

Notation "x <- m ;; k" := (bind m (fun x => k))
  (at level 61, m at next level, right associativity).
Notation "m ;;; k" := (bind m (fun _ => k))
  (at level 61, right associativity).

(** [for (const x of xs) { await body(x) }]. *)
Fixpoint for_each {A} (xs : list A) (body : A -> M unit) : M unit :=
  match xs with
  | [] => ret tt
  | x :: xs' => body x ;;; for_each xs' body
  end.

(** The keys that [for (const k in array)] enumerates: the indices, as
    strings. *)
Definition array_keys {A} (xs : list A) : list string :=
  map Js.of_nat (seq 0 (List.length xs)).

(** *** File-system reads *)

(** [fs.existsSync] is false whenever the path cannot be statted. *)
Definition existsSync (p : string) : M bool :=
  read (fun w =>
          match fs w p with
          | Some (Unstatable _) => false
          | Some _ => true
          | None => false
          end).

Definition statSync (p : string) : M Stats :=
  fun w =>
    match fs w p with
    | Some (Unstatable code) => (Throw (SystemError code "stat" p), w, [])
    | Some s => (Return s, w, [])
    | None => (Throw (SystemError "ENOENT" "stat" p), w, [])
    end.

Definition lstatSync (p : string) : M Stats :=
  fun w =>
    match fs w p with
    | Some (Unstatable code) => (Throw (SystemError code "lstat" p), w, [])
    | Some s => (Return s, w, [])
    | None => (Throw (SystemError "ENOENT" "lstat" p), w, [])
    end.

Definition readdirSync (p : string) : M (list string) :=
  fun w =>
    match fs w p with
    | Some (IsDirectory entries) => (Return entries, w, [])
    | Some (Unstatable code) => (Throw (SystemError code "scandir" p), w, [])
    | Some _ => (Throw (SystemError "ENOTDIR" "scandir" p), w, [])
    | None => (Throw (SystemError "ENOENT" "scandir" p), w, [])
    end.

(** *** Constants of the module, lines 8-12 *)

Definition IS_WINDOWS : bool := platform =? "win32".
Definition IS_MACOS : bool := platform =? "darwin".
Definition toolName : string := "AdoptOpenJDK".
Definition os : string := getOsString platform.

Definition env_or (name default : string) : string :=
  match env name with
  | Some v => if Js.truthy v then v else default
  | None => default
  end.

(** [getTempDirectory], lines 14-31. *)
Definition getTempDirectory (tempDirectory : string) : string :=
  if negb (Js.truthy tempDirectory) then
    let baseLocation :=
      if platform =? "win32" then env_or "USERPROFILE" "C:\"
      else if platform =? "darwin" then "/Users"
      else "/home" in
    path_join path [baseLocation; "actions"; "temp"]
  else tempDirectory.

Definition tempDirectory : string := getTempDirectory (env_or "RUNNER_TEMP" "").

(** *** Retrying Fetcher *)

Definition max_retries_error : Error :=
  JsError "Unable to download JDK, max retries reached".

(** [retry], lines 163-186.  The recursion of the source is on no decreasing
    argument, so the model counts the calls it may still make in [steps];
    [Attempt] marks each call of [fn].  [if (retriesLeft)] tests that the
    number is not zero. *)
Fixpoint retry (steps : nat) (fn : M string) (retriesLeft interval : Z)
  (exponential : bool) : M string :=
  match steps with
  | O => pending
  | S steps' =>
      try_catch
        (emit Attempt ;;;
         val <- fn ;;
         ret val)
        (fun error =>
           if negb (retriesLeft =? 0)%Z then
             emit (Warning ("Download failed because of: " ++ error_toString error)) ;;;
             emit (Warning ("Retrying after a grace period of "
                            ++ Js.of_Z interval ++ "ms.")) ;;;
             emit (Info (Js.of_Z retriesLeft ++ " retries left")) ;;;
             emit (SetTimeout interval) ;;;
             retry steps' fn (retriesLeft - 1)
               (if exponential then interval * 2 else interval)%Z
               exponential
           else throw max_retries_error)
  end.

(** *** Archive Extractor *)

(** [extractFiles], lines 199-225. *)
Definition extractFiles (file fileEnding destinationFolder : string) : M unit :=
  stats <- statSync file ;;
  if negb (object_truthy stats) then
    throw (JsError ("Failed to extract " ++ file ++ " - it doesn't exist"))
  else if isDirectory stats then
    throw (JsError ("Failed to extract " ++ file ++ " - it is a directory"))
  else if (fileEnding =? ".tar") || (fileEnding =? ".tar.gz") then
    call (ExtractTar file destinationFolder) ;;; ret tt
  else if fileEnding =? ".zip" then
    call (ExtractZip file destinationFolder) ;;; ret tt
  else if fileEnding =? ".7z" then
    call (Extract7z file destinationFolder) ;;; ret tt
  else
    throw (JsError ("Failed to extract " ++ file ++ " - unknown compression")).

(** *** Post-Extract Normalizer *)

(** The double quote, as a string. *)
Definition dquote : string := String (ascii_of_nat 34) EmptyString.

Definition quoted (s : string) : string := dquote ++ s ++ dquote.

(** [unpackJars], lines 228-246.  [steps] bounds the depth of the recursion.
    The loop is a [for ... in] over the array that [readdirSync] returns. *)
Fixpoint unpackJars (steps : nat) (fsPath javaBinPath : string) : M unit :=
  match steps with
  | O => pending
  | S steps' =>
      ex <- existsSync fsPath ;;
      if ex : bool then
        st <- lstatSync fsPath ;;
        if isDirectory st then
          listing <- readdirSync fsPath ;;
          for_each (array_keys listing)
            (fun file =>
               let curPath := path_join path [fsPath; file] in
               unpackJars steps' curPath javaBinPath)
        else if Js.toLowerCase (path_extname path fsPath) =? ".pack" then
          let p_dir := path_parse_dir path fsPath in
          let p_name := path_parse_name path fsPath in
          let toolName := if IS_WINDOWS then "unpack200.exe" else "unpack200" in
          let args := if IS_WINDOWS then "-r -v -l " ++ dquote ++ dquote else "" in
          let name := path_join path [p_dir; p_name] in
          call (Exec (quoted (path_join path [javaBinPath; toolName]))
                  [args ++ " " ++ quoted (name ++ ".pack") ++ " "
                     ++ quoted (name ++ ".jar")]) ;;;
          ret tt
        else ret tt
      else ret tt
  end.

(** [getJdkDirectory], lines 268-279.  On an empty listing the first entry
    is [undefined], which [path.join] rejects. *)
Definition getJdkDirectory (destinationFolder : string) : M string :=
  listing <- readdirSync destinationFolder ;;
  match listing with
  | first :: _ =>
      if IS_MACOS then
        ret (path_join path [destinationFolder; first; "Contents"; "Home"])
      else ret (path_join path [destinationFolder; first])
  | [] =>
      throw (JsError ("The " ++ quoted "path"
                      ++ " argument must be of type string. Received undefined"))
  end.

(** [unzipJavaDownload], lines 248-266. *)
Definition unzipJavaDownload (steps : nat)
  (repoRoot fileEnding destinationFolder : string) : M string :=
  call (MkdirP destinationFolder) ;;;
  let jdkFile := path_normalize path repoRoot in
  stats <- statSync jdkFile ;;
  if isFile stats then
    extractFiles jdkFile fileEnding destinationFolder ;;;
    jdkDirectory <- getJdkDirectory destinationFolder ;;
    unpackJars steps jdkDirectory (path_join path [jdkDirectory; "bin"]) ;;;
    ret jdkDirectory
  else throw (JsError ("JDK argument " ++ jdkFile ++ " is not a file")).

(** *** The pipeline *)

(** The key that [downloadJavaBinary] probes and populates the cache with,
    lines 106-113: the fields are passed as they were received. *)
Definition versionSpec_of
  (release_type version jvm_impl os arch heap_size release : string) : string :=
  getCacheVersionSpec release_type version jvm_impl os heap_size release.

(** [downloadJavaBinary], lines 97-151. *)
Definition downloadJavaBinary (steps : nat)
  (release_type version jvm_impl os arch heap_size release : string) : M unit :=
  let versionSpec :=
    versionSpec_of release_type version jvm_impl os arch heap_size release in
  found <- read (fun w => tc_find w toolName versionSpec arch) ;;
  toolPath <-
    (if Js.truthy found then
       emit (Debug ("Tool found in cache " ++ found)) ;;;
       ret found
     else
       emit (Debug "Downloading JDK from AdoptOpenJDK") ;;;
       let url :=
         getAdoptOpenJdkUrl release_type version jvm_impl os arch heap_size release in
       emit (Info ("Downloading JDK from " ++ url)) ;;;
       jdkFile <- retry steps (call (DownloadTool url)) 10 1000 true ;;
       let compressedFileExtension := if IS_WINDOWS then ".zip" else ".tar.gz" in
       r <- random 2000000000 ;;
       let tempDir := path_join path [tempDirectory; "adoptopenjdk_" ++ Js.of_Z r] in
       jdkDir <- unzipJavaDownload steps jdkFile compressedFileExtension tempDir ;;
       emit (Debug ("JDK extracted to " ++ jdkDir)) ;;;
       call (CacheDir jdkDir toolName versionSpec arch)) ;;
  let extendedJavaHome := "JAVA_HOME_" ++ version ++ "_" ++ arch in
  emit (ExportVariable "JAVA_HOME" toolPath) ;;;
  emit (ExportVariable extendedJavaHome toolPath) ;;;
  emit (AddPath (path_join path [toolPath; "bin"])).

(** [getJava], lines 78-95. *)
Definition getJava (steps : nat)
  (release_type version jvm_impl arch heap_size release : string) : M unit :=
  downloadJavaBinary steps release_type version jvm_impl os arch heap_size release.

End Installer.

(** ** Install requests *)

(** The six inputs of a request, as [run] reads them. *)
Record InstallRequest : Type := {
  releaseType : string;
  featureVersion : string;
  implementation : string;
  architecture : string;
  heapSize : string;
  release : string
}.

(** Two requests are semantically equal when they agree after the aliases of
    the Spec Resolver are resolved. *)
Definition semantically_equal (a b : InstallRequest) : Prop :=
  getReleaseType (releaseType a) = getReleaseType (releaseType b)
  /\ getFeatureVersion (featureVersion a) = getFeatureVersion (featureVersion b)
  /\ implementation a = implementation b
  /\ architecture a = architecture b
  /\ heapSize a = heapSize b
  /\ release a = release b.

(** The same request, once under the alias and once under the canonical
    release type. *)
Definition request_releases : InstallRequest :=
  {| releaseType := "releases"; featureVersion := "11";
     implementation := "hotspot"; architecture := "x64";
     heapSize := "normal"; release := "latest" |}.

Definition request_ga : InstallRequest :=
  {| releaseType := "ga"; featureVersion := "11";
     implementation := "hotspot"; architecture := "x64";
     heapSize := "normal"; release := "latest" |}.

(** The key of a request on a host whose OS string is [os]. *)
Definition request_versionSpec (os : string) (a : InstallRequest) : string :=
  versionSpec_of (releaseType a) (featureVersion a) (implementation a) os
    (architecture a) (heapSize a) (release a).

(** The five fields the key is built from. *)
Definition KeyFields : Type := (string * string * string * string * string)%type.

Definition key_of (os : string) (t : KeyFields) : string :=
  match t with
  | (release_type, version, jvm_impl, heap_size, release) =>
      getCacheVersionSpec release_type version jvm_impl os heap_size release
  end.

Definition dash_free (s : string) : Prop := Js.has_char "-" s = false.

(** ** A sample host

    A small world to run the pipeline in: a table of paths, the entries of
    the tool cache and the number of downloads that will still fail. *)

Module Sample.

Record World : Type := {
  files : list (string * Stats);
  cached : list (string * string * string * string);
  failures : nat
}.

Fixpoint lookup (p : string) (tbl : list (string * Stats)) : option Stats :=
  match tbl with
  | [] => None
  | (q, s) :: tbl' => if p =? q then Some s else lookup p tbl'
  end.

(** A path that runs through something that is no directory. *)
Fixpoint under_file (p : string) (tbl : list (string * Stats)) : bool :=
  match tbl with
  | [] => false
  | (q, s) :: tbl' =>
      (negb (isDirectory s) && Js.startsWith (q ++ "/") p) || under_file p tbl'
  end.

Definition fs (w : World) (p : string) : option Stats :=
  match lookup p (files w) with
  | Some s => Some s
  | None => if under_file p (files w) then Some (Unstatable "ENOTDIR") else None
  end.

Fixpoint find_cached (tool version arch : string)
  (tbl : list (string * string * string * string)) : string :=
  match tbl with
  | [] => ""
  | (t, v, a, p) :: tbl' =>
      if (t =? tool) && (v =? version) && (a =? arch) then p
      else find_cached tool version arch tbl'
  end.

Definition tc_find (w : World) (tool version arch : string) : string :=
  find_cached tool version arch (cached w).

Definition add_files (new : list (string * Stats)) (w : World) : World :=
  {| files := (new ++ files w)%list; cached := cached w; failures := failures w |}.

(** What an archive of a JDK unpacks to under [dest]. *)
Definition unpacked (dest : string) : list (string * Stats) :=
  [ (dest, IsDirectory ["jdk-11"]);
    (dest ++ "/jdk-11", IsDirectory ["bin"; "lib"]);
    (dest ++ "/jdk-11/bin", IsDirectory ["java"; "unpack200"]);
    (dest ++ "/jdk-11/bin/java", IsFile);
    (dest ++ "/jdk-11/bin/unpack200", IsFile);
    (dest ++ "/jdk-11/lib", IsDirectory ["rt.pack"]);
    (dest ++ "/jdk-11/lib/rt.pack", IsFile) ].

Definition host (c : Command) (w : World) : (Error + string) * World :=
  match c with
  | DownloadTool url =>
      match failures w with
      | S n =>
          (inl (JsError "socket hang up"),
           {| files := files w; cached := cached w; failures := n |})
      | O => (inr "/tmp/download", add_files [("/tmp/download", IsFile)] w)
      end
  | ExtractTar _ dest | ExtractZip _ dest | Extract7z _ dest =>
      (inr dest, add_files (unpacked dest) w)
  | CacheDir _ tool version arch =>
      let p := "/cache/" ++ tool ++ "/" ++ version ++ "/" ++ arch in
      (inr p,
       {| files := files w;
          cached := (tool, version, arch, p) :: cached w;
          failures := failures w |})
  | MkdirP dir => (inr "", add_files [(dir, IsDirectory [])] w)
  | Exec _ _ => (inr "0", w)
  end.

Definition random_below (n : Z) (w : World) : Z * World := (42%Z, w).

Definition env (name : string) : option string := None.

(** A host with nothing on it, and one with a JDK already cached. *)
Definition empty : World := {| files := []; cached := []; failures := 0 |}.

Definition flaky (n : nat) : World := {| files := []; cached := []; failures := n |}.

Definition warm : World :=
  {| files := [];
     cached := [("AdoptOpenJDK", "1.0.0-ga-11-hotspot-normal-latest", "x64",
                 "/cache/AdoptOpenJDK/11/x64")];
     failures := 0 |}.

(** A directory with one packed archive in it. *)
Definition packed : World :=
  {| files := [("/jdk", IsDirectory ["rt.pack"]); ("/jdk/rt.pack", IsFile)];
     cached := [];
     failures := 0 |}.

(** The pipeline on the sample host, Linux. *)
Definition run_download (steps : nat)
  (release_type version jvm_impl arch heap_size release : string) (w : World) :=
  getJava fs tc_find host random_below "linux" env Posix.path steps
    release_type version jvm_impl arch heap_size release w.

End Sample.

(** ** The entry point, [src/setup-jdk.ts] *)

(** The options of [getInput]; [options && options.required] is false
    without options. *)
Record InputOptions : Type := { required : bool }.

Definition input_key (name : string) : string :=
  "INPUT_" ++ Js.toUpperCase (Js.replace "-" "_" (Js.replaceAll " " "_" name)).

Definition input_key_verbatim (name : string) : string :=
  "INPUT_" ++ Js.toUpperCase (Js.replaceAll " " "_" name).

Definition env_value (env : string -> option string) (key : string) : string :=
  match env key with
  | Some v => Js.or_else v ""
  | None => ""
  end.

Definition input_required_error (name : string) : Error :=
  JsError ("Input required and not supplied: " ++ name).

(** [getInput], lines 324-339 of the listing. *)
Definition getInput (env : string -> option string) (name : string)
  (options : option InputOptions) : Error + string :=
  let val := env_value env (input_key name) in
  let val := if negb (Js.truthy val) then env_value env (input_key_verbatim name)
             else val in
  if match options with Some o => required o | None => false end
     && negb (Js.truthy val)
  then inl (input_required_error name)
  else inr (Js.trim val).

(** What the process shows: the events of the installer, the line that
    [console.log] prints and the failure that [core.setFailed] records. *)
Inductive Output : Type :=
| Installer (e : Event)
| ConsoleLog (line : string)
| SetFailed (message : string).

(** The six inputs in the order [run] reads them, lines 287-298. *)
Definition read_inputs (env : string -> option string) : Error + InstallRequest :=
  match getInput env "release_type" (Some {| required := false |}) with
  | inl e => inl e
  | inr release_type =>
  match getInput env "java-version" (Some {| required := true |}) with
  | inl e => inl e
  | inr javaVersion =>
  match getInput env "openjdk_impl" (Some {| required := false |}) with
  | inl e => inl e
  | inr openjdk_impl =>
  match getInput env "architecture" (Some {| required := false |}) with
  | inl e => inl e
  | inr arch =>
  match getInput env "heap_size" (Some {| required := false |}) with
  | inl e => inl e
  | inr heap_size =>
  match getInput env "release" (Some {| required := false |}) with
  | inl e => inl e
  | inr release =>
      inr {| releaseType := Js.or_else release_type "ga";
             featureVersion := javaVersion;
             implementation := Js.or_else openjdk_impl "hotspot";
             architecture := Js.or_else arch "x64";
             heapSize := Js.or_else heap_size "normal";
             release := Js.or_else release "latest" |}
  end end end end end end.

Section Main.

Variable World : Type.
Variable fs : World -> string -> option Stats.
Variable tc_find : World -> string -> string -> string -> string.
Variable host : Command -> World -> (Error + string) * World.
Variable random_below : Z -> World -> Z * World.
Variable platform : string.
Variable env : string -> option string.
Variable path : PathModule.

(** [__dirname] of the compiled entry point. *)
Variable dirname : string.

Definition add_matcher_line : string :=
  let matchersPath := path_join path [dirname; ".."; ".github"] in
  "##[add-matcher]" ++ path_join path [matchersPath; "java.json"].

(** [run], lines 284-314 of the listing: everything thrown inside the [try]
    ends in [core.setFailed(error.message)]. *)
Definition run (steps : nat) (w : World) : Outcome unit * World * list Output :=
  match read_inputs env with
  | inl error => (Return tt, w, [SetFailed (error_message error)])
  | inr i =>
      match getJava fs tc_find host random_below platform env path steps
              (releaseType i) (featureVersion i) (implementation i)
              (architecture i) (heapSize i) (release i) w with
      | (Return _, w1, evs) =>
          (Return tt, w1, (map Installer evs ++ [ConsoleLog add_matcher_line])%list)
      | (Throw error, w1, evs) =>
          (Return tt, w1, (map Installer evs ++ [SetFailed (error_message error)])%list)
      | (Pending, w1, evs) => (Pending, w1, map Installer evs)
      end
  end.

End Main.

(** ** What a run shows *)

Definition outcome_of {W A : Type} (r : Outcome A * W * list Event) : Outcome A :=
  fst (fst r).

Definition world_of {W A : Type} (r : Outcome A * W * list Event) : W :=
  snd (fst r).

Definition events_of {W A : Type} (r : Outcome A * W * list Event) : list Event :=
  snd r.

(** [fn] settles: its promise resolves or rejects, in every world. *)
Definition settles {W : Type} (fn : M W string) : Prop :=
  forall w, outcome_of (fn w) <> Pending.

(** [fn] rejects in every world. *)
Definition always_fails {W : Type} (fn : M W string) : Prop :=
  forall w, exists e, outcome_of (fn w) = Throw e.

(** From the world [w] on, [fn] fails exactly [n] times and then succeeds
    with [v], leaving the world [w'].  The events of [fn] are its own: none
    of them is the mark [Attempt] of the model. *)
Inductive fails_then_succeeds {W : Type} (fn : M W string)
  : nat -> W -> string -> W -> Prop :=
| fts_success w v w' evs :
    fn w = (Return v, w', evs) -> attempts evs = 0 ->
    fails_then_succeeds fn 0 w v w'
| fts_failure n w e w1 evs v w' :
    fn w = (Throw e, w1, evs) -> attempts evs = 0 ->
    fails_then_succeeds fn n w1 v w' ->
    fails_then_succeeds fn (S n) w v w'.

(** The four lines that [retry] logs between two attempts. *)
Definition grace_period (error : Error) (retriesLeft interval : Z) : list Event :=
  [ Warning ("Download failed because of: " ++ error_toString error);
    Warning ("Retrying after a grace period of " ++ Js.of_Z interval ++ "ms.");
    Info (Js.of_Z retriesLeft ++ " retries left");
    SetTimeout interval ].

(** The endings that [extractFiles] dispatches on. *)
Definition known_endings : list string := [".tar"; ".tar.gz"; ".zip"; ".7z"].

(** The errors of [extractFiles]. *)
Definition unknown_compression_error (file : string) : Error :=
  JsError ("Failed to extract " ++ file ++ " - unknown compression").

Definition is_a_directory_error (file : string) : Error :=
  JsError ("Failed to extract " ++ file ++ " - it is a directory").

Definition not_found_error (file : string) : Error :=
  SystemError "ENOENT" "stat" file.

Definition is_extraction (c : Command) : bool :=
  match c with
  | ExtractTar _ _ | ExtractZip _ _ | Extract7z _ _ => true
  | _ => false
  end.

(** The sample host without a network: every download is rejected. *)
Definition offline_host (c : Command) (w : Sample.World)
  : (Error + string) * Sample.World :=
  match c with
  | DownloadTool _ => (inl (JsError "getaddrinfo ENOTFOUND api.adoptopenjdk.net"), w)
  | _ => Sample.host c w
  end.

(** An environment with the given version under [INPUT_JAVA_VERSION] and
    nothing else. *)
Definition env_with_version (v : string) (key : string) : option string :=
  if key =? "INPUT_JAVA_VERSION" then Some v else None.

(** ** Observations on runs *)

(** The delays a run waits for, in order. *)
Definition timeouts (evs : list Event) : list Z :=
  flat_map (fun e => match e with SetTimeout ms => [ms] | _ => [] end) evs.

(** The calls into the collaborators a run makes, in order. *)
Definition calls (evs : list Event) : list Command :=
  flat_map (fun e => match e with Call c => [c] | _ => [] end) evs.

(** The events that publish the installation to the environment. *)
Definition is_publish (e : Event) : bool :=
  match e with
  | ExportVariable _ _ | AddPath _ => true
  | _ => false
  end.

(** [fn] waits for nothing and carries no mark of the model. *)
Definition quiet {W : Type} (fn : M W string) : Prop :=
  forall w, timeouts (events_of (fn w)) = [] /\ attempts (events_of (fn w)) = 0.

(** The delays of [n] retries that start at [interval]. *)
Definition backoff (exponential : bool) (interval : Z) (n : nat) : list Z :=
  map (fun k => if exponential then interval * 2 ^ Z.of_nat k else interval)%Z
    (seq 0 n).

Definition is_exec (c : Command) : bool :=
  match c with Exec _ _ => true | _ => false end.

(** The calls that an install of the given request may make on a host whose
    scratch root is [tempDir]: the download of the request's URL, the scratch
    directory and the extraction into it, the unpack tool in the [bin]
    directory of the JDK directory found there, and the store under the key
    of the request. *)
Definition allowed_call (path : PathModule) (platform tempDir : string)
  (release_type version jvm_impl os arch heap_size release : string)
  (c : Command) : Prop :=
  let scratch d :=
    exists r : Z, d = path_join path [tempDir; "adoptopenjdk_" ++ Js.of_Z r] in
  match c with
  | DownloadTool url =>
      url = getAdoptOpenJdkUrl release_type version jvm_impl os arch heap_size release
  | MkdirP d => scratch d
  | ExtractTar _ dest => (platform =? "win32") = false /\ scratch dest
  | ExtractZip _ dest => (platform =? "win32") = true /\ scratch dest
  | Extract7z _ _ => False
  | Exec commandLine _ =>
      exists d first,
        scratch d
        /\ commandLine
           = quoted
               (path_join path
                  [path_join path
                     [if platform =? "darwin" then
                        path_join path [d; first; "Contents"; "Home"]
                      else path_join path [d; first];
                      "bin"];
                   if platform =? "win32" then "unpack200.exe" else "unpack200"])
  | CacheDir _ tool spec a =>
      tool = "AdoptOpenJDK"
      /\ spec = versionSpec_of release_type version jvm_impl os arch heap_size release
      /\ a = arch
  end.

(** * Properties *)

Unset Implicit Arguments.

(** ** Strings *)

Module JsFacts.

Lemma startsWith_app (p r : string) : Js.startsWith p (p ++ r) = true.
Proof.
  induction p as [|c p IH]; simpl; [reflexivity|].
  now rewrite Ascii.eqb_refl, IH.
Qed.

Lemma drop_app (p r : string) : Js.drop (String.length p) (p ++ r) = r.
Proof. induction p as [|c p IH]; simpl; [now destruct r | exact IH]. Qed.

Lemma startsWith_true (p s : string) :
  Js.startsWith p s = true -> s = p ++ Js.drop (String.length p) s.
Proof.
  revert s; induction p as [|c p IH]; intros s H; simpl in *.
  - now destruct s.
  - destruct s as [|d s]; [discriminate|].
    apply andb_true_iff in H as [Hc Hp].
    apply Ascii.eqb_eq in Hc; subst d.
    simpl. f_equal. now apply IH.
Qed.

Lemma replace_eq (pat rep s : string) :
  Js.replace pat rep s =
  if Js.startsWith pat s then rep ++ Js.drop (String.length pat) s
  else match s with
       | EmptyString => EmptyString
       | String c s' => String c (Js.replace pat rep s')
       end.
Proof. destruct s; reflexivity. Qed.

Lemma includes_eq (p s : string) :
  Js.includes p s =
  Js.startsWith p s
  || match s with EmptyString => false | String _ s' => Js.includes p s' end.
Proof. destruct s; reflexivity. Qed.

(** Without an occurrence of the pattern nothing is replaced. *)
Lemma replace_absent (pat rep s : string) :
  Js.includes pat s = false -> Js.replace pat rep s = s.
Proof.
  induction s as [|c s IH]; intros H; rewrite includes_eq in H;
    apply orb_false_iff in H as [Hs Hi]; rewrite replace_eq, Hs.
  - reflexivity.
  - now rewrite IH.
Qed.

(** With an occurrence, the first one is cut out. *)
Lemma replace_first (pat s : string) :
  Js.includes pat s = true ->
  exists a b,
    s = a ++ pat ++ b
    /\ Js.replace pat "" s = a ++ b
    /\ forall a' b', s = a' ++ pat ++ b' -> String.length a <= String.length a'.
Proof.
  induction s as [|c s IH]; intros H; rewrite includes_eq in H;
    rewrite replace_eq; destruct (Js.startsWith pat _) eqn:Hs.
  - exists "", (Js.drop (String.length pat) ""); repeat split.
    + now apply startsWith_true.
    + intros; apply Nat.le_0_l.
  - discriminate.
  - exists "", (Js.drop (String.length pat) (String c s)); repeat split.
    + now apply startsWith_true.
    + intros; apply Nat.le_0_l.
  - simpl in H. destruct (IH H) as (a & b & Hab & Hr & Hmin).
    exists (String c a), b; repeat split.
    + simpl. now rewrite <- Hab.
    + simpl. now rewrite Hr.
    + intros a' b' E. destruct a' as [|c' a'].
      * simpl in E. rewrite E, startsWith_app in Hs. discriminate.
      * simpl in E. injection E as _ E. simpl.
        apply le_n_S. now apply (Hmin a' b').
Qed.









(** Two strings cut at their first dash agree piece by piece. *)
Lemma dash_split (a a' b b' : string) :
  dash_free a -> dash_free a' ->
  a ++ "-" ++ b = a' ++ "-" ++ b' -> a = a' /\ b = b'.
Proof.
  unfold dash_free, Js.has_char.
  revert a'; induction a as [|c a IH]; intros [|c' a'] Ha Ha' E; simpl in *.
  - injection E as E. now split.
  - injection E as Ec _. subst c'. discriminate.
  - injection E as Ec _. subst c. discriminate.
  - injection E as Ec E. subst c'.
    apply orb_false_iff in Ha as [_ Ha].
    apply orb_false_iff in Ha' as [_ Ha'].
    destruct (IH a' Ha Ha' E) as [-> ->]. now split.
Qed.

End JsFacts.

(** ** Spec Resolver *)

(** C7, as stated, fails: a version that contains [openjdk] after its first
    character does not start with it and yet is changed. *)
Lemma getFeatureVersion_changes_inner_openjdk :
  Js.startsWith "openjdk" "11openjdk" = false
  /\ getFeatureVersion "11openjdk" <> "11openjdk".
Proof. split; [reflexivity | discriminate]. Qed.

(** C7, amended: [getFeatureVersion] strips the literal prefix [openjdk] when
    the version starts with it; it returns the version unchanged when
    [openjdk] does not occur in it; and otherwise it cuts out the first
    occurrence of [openjdk]. *)
Theorem getFeatureVersion_removes_first_openjdk (version : string) :
  if Js.startsWith "openjdk" version then
    version = "openjdk" ++ getFeatureVersion version
  else if Js.includes "openjdk" version then
    exists a b,
      version = a ++ "openjdk" ++ b
      /\ getFeatureVersion version = a ++ b
      /\ forall a' b',
           version = a' ++ "openjdk" ++ b' -> String.length a <= String.length a'
  else getFeatureVersion version = version.
Proof.
  unfold getFeatureVersion.
  destruct (Js.startsWith "openjdk" version) eqn:Hs.
  - rewrite JsFacts.replace_eq, Hs. now apply JsFacts.startsWith_true.
  - destruct (Js.includes "openjdk" version) eqn:Hi.
    + now apply JsFacts.replace_first.
    + now apply JsFacts.replace_absent.
Qed.

Example getFeatureVersion_openjdk11 : getFeatureVersion "openjdk11" = "11".
Proof. reflexivity. Qed.

Example getFeatureVersion_11 : getFeatureVersion "11" = "11".
Proof. reflexivity. Qed.



Example getAdoptOpenJdkUrl_exact_release :
  getAdoptOpenJdkUrl "ga" "11" "hotspot" "linux" "x64" "normal" "jdk-11.0.4+11.4"
  = "https://api.adoptopenjdk.net/v3/binary/version/jdk-11.0.4%2B11.4/linux/x64/jdk/hotspot/normal/adoptopenjdk".
Proof. reflexivity. Qed.

(** ** Cache Key Builder *)

(** C1, as stated, fails: the alias [releases] and its canonical value [ga]
    name the same request, and the two keys differ. *)
Lemma alias_requests_get_different_keys :
  semantically_equal request_releases request_ga
  /\ request_versionSpec "linux" request_releases
     <> request_versionSpec "linux" request_ga.
Proof.
  split.
  - repeat split.
  - discriminate.
Qed.

Lemma string_length_app (a b : string) :
  String.length (a ++ b) = String.length a + String.length b.
Proof. induction a as [|c a IH]; simpl; [reflexivity | now rewrite IH]. Qed.

Lemma app_cancel_l (p x y : string) : p ++ x = p ++ y -> x = y.
Proof. induction p as [|c p IH]; simpl; intros H; [exact H | injection H as H; auto]. Qed.

Lemma app_cancel_r (s x y : string) : x ++ s = y ++ s -> x = y.
Proof.
  revert y. induction x as [|c x IH]; intros [|d y] H; simpl in H.
  - reflexivity.
  - apply (f_equal String.length) in H. simpl in H. rewrite string_length_app in H. lia.
  - apply (f_equal String.length) in H. simpl in H. rewrite string_length_app in H. lia.
  - injection H as -> H. f_equal. now apply IH.
Qed.

(** Two release types that resolve to the same value are the same string or
    are both among the four names [releases], [ga], [nightly] and [ea]. *)
Lemma getReleaseType_eq_cases (x y : string) :
  getReleaseType x = getReleaseType y -> x = y \/ (dash_free x /\ dash_free y).
Proof.
  unfold getReleaseType.
  destruct (String.eqb_spec x "releases") as [-> | X1];
    [| destruct (String.eqb_spec x "nightly") as [-> | X2] ];
    (destruct (String.eqb_spec y "releases") as [-> | Y1];
     [| destruct (String.eqb_spec y "nightly") as [-> | Y2] ]);
    intros H; try discriminate H; subst;
    first [ now left | right; split; reflexivity ].
Qed.

(** C1, amended: two requests that are semantically equal get the same key
    exactly when their release types and their versions are the same
    strings as received, before any alias is resolved; so an alias and its
    canonical value never share a key. *)
Theorem semantically_equal_requests_share_key_iff_raw
  (os os' : string) (a b : InstallRequest) :
  semantically_equal a b ->
  (request_versionSpec os a = request_versionSpec os' b
   <-> releaseType a = releaseType b /\ featureVersion a = featureVersion b).
Proof.
  intros (Hr & _ & Hi & _ & Hh & Hl).
  unfold request_versionSpec, versionSpec_of, getCacheVersionSpec.
  rewrite Hi, Hh, Hl. split.
  - intros E. simpl in E. injection E as E.
    assert (Hrt : releaseType a = releaseType b
                  /\ featureVersion a
                       ++ "-" ++ implementation b ++ "-" ++ heapSize b ++ "-" ++ release b
                     = featureVersion b
                       ++ "-" ++ implementation b ++ "-" ++ heapSize b ++ "-" ++ release b).
    { destruct (getReleaseType_eq_cases _ _ Hr) as [Heq | [Da Db]].
      - split; [exact Heq|]. rewrite Heq in E.
        apply app_cancel_l in E. now injection E.
      - now apply JsFacts.dash_split. }
    destruct Hrt as [Hrt Hv]. split; [exact Hrt|].
    now apply app_cancel_r in Hv.
  - intros [-> ->]. reflexivity.
Qed.

Lemma semantically_equal_requests_share_key_iff_raw_witness :
  request_versionSpec "linux" request_releases = request_versionSpec "linux" request_ga
  <-> releaseType request_releases = releaseType request_ga
      /\ featureVersion request_releases = featureVersion request_ga.
Proof.
  apply (semantically_equal_requests_share_key_iff_raw "linux" "linux"
           request_releases request_ga).
  repeat split.
Defined.

(** C4, as stated, fails: the fields are joined with dashes and may contain
    dashes, so two different tuples of canonical fields get the same key. *)
Lemma versionSpec_collision :
  ("ga", "11", "hotspot", "normal-jdk", "11")
    <> ("ga", "11", "hotspot", "normal", "jdk-11")
  /\ key_of "linux" ("ga", "11", "hotspot", "normal-jdk", "11")
     = key_of "linux" ("ga", "11", "hotspot", "normal", "jdk-11").
Proof. split; [discriminate | reflexivity]. Qed.

(** C4, amended: the key does not depend on the architecture (nor on the OS
    string), and on tuples whose release type, version, implementation and
    heap size contain no dash, equal keys come from equal tuples only. *)
Theorem versionSpec_injective_without_dashes
  (os os' arch arch' : string)
  (release_type version jvm_impl heap_size release : string)
  (release_type' version' jvm_impl' heap_size' release' : string) :
  dash_free release_type -> dash_free version ->
  dash_free jvm_impl -> dash_free heap_size ->
  dash_free release_type' -> dash_free version' ->
  dash_free jvm_impl' -> dash_free heap_size' ->
  (versionSpec_of release_type version jvm_impl os arch heap_size release
   = versionSpec_of release_type' version' jvm_impl' os' arch' heap_size' release'
   <-> (release_type, version, jvm_impl, heap_size, release)
       = (release_type', version', jvm_impl', heap_size', release')).
Proof.
  intros H1 H2 H3 H4 H1' H2' H3' H4'.
  unfold versionSpec_of, getCacheVersionSpec. split.
  - intros E. simpl in E. injection E as E.
    apply JsFacts.dash_split in E as [-> E]; trivial.
    apply JsFacts.dash_split in E as [-> E]; trivial.
    apply JsFacts.dash_split in E as [-> E]; trivial.
    apply JsFacts.dash_split in E as [-> E]; trivial.
    now subst.
  - intros E. injection E as -> -> -> -> ->. reflexivity.
Qed.

Lemma versionSpec_injective_without_dashes_witness :
  versionSpec_of "ga" "11" "hotspot" "linux" "x64" "normal" "jdk-11.0.4+11.4"
  = versionSpec_of "ga" "11" "hotspot" "mac" "arm" "normal" "jdk-11.0.4+11.4"
  <-> ("ga", "11", "hotspot", "normal", "jdk-11.0.4+11.4")
      = ("ga", "11", "hotspot", "normal", "jdk-11.0.4+11.4").
Proof.
  apply (versionSpec_injective_without_dashes "linux" "mac" "x64" "arm");
    reflexivity.
Defined.

(** ** Retrying Fetcher *)

Section RetryFacts.

Variable World : Type.
Variable fn : M World string.

Lemma attempts_app (xs ys : list Event) :
  attempts (xs ++ ys) = attempts xs + attempts ys.
Proof. unfold attempts. now rewrite filter_app, length_app. Qed.

(** One unfolding of [retry], by the outcome of the attempt. *)
Lemma retry_resolved steps R interval exponential w v w' evs :
  fn w = (Return v, w', evs) ->
  retry (S steps) fn R interval exponential w = (Return v, w', Attempt :: evs).
Proof.
  intros H. simpl. unfold try_catch, bind, emit, ret. rewrite H. simpl.
  now rewrite app_nil_r.
Qed.

Lemma retry_exhausted steps interval exponential w e w' evs :
  fn w = (Throw e, w', evs) ->
  retry (S steps) fn 0 interval exponential w
  = (Throw max_retries_error, w', Attempt :: evs).
Proof.
  intros H. simpl. unfold try_catch, bind, emit, throw. rewrite H. simpl.
  now rewrite app_nil_r.
Qed.

Lemma retry_rejected steps R interval exponential w e w' evs :
  fn w = (Throw e, w', evs) -> R <> 0%Z ->
  retry (S steps) fn R interval exponential w
  = let r := retry steps fn (R - 1)
               (if exponential then interval * 2 else interval)%Z exponential w' in
    (outcome_of r, world_of r,
     (Attempt :: evs ++ grace_period e R interval ++ events_of r)%list).
Proof.
  intros H HR. apply Z.eqb_neq in HR.
  cbn [retry]. unfold try_catch at 1. unfold bind at 1. unfold emit at 1.
  unfold bind at 1. rewrite H. rewrite HR. cbn [negb].
  unfold bind, emit.
  destruct (retry steps fn (R - 1) _ exponential w') as [[o w2] evs2].
  cbn. reflexivity.
Qed.

Lemma retry_pending steps R interval exponential w w' evs :
  fn w = (Pending, w', evs) ->
  retry (S steps) fn R interval exponential w = (Pending, w', Attempt :: evs).
Proof.
  intros H. simpl. unfold try_catch, bind, emit. rewrite H. reflexivity.
Qed.

(** C3: when [fn] fails exactly [N] times and then succeeds, [retry] with a
    budget [R >= N] returns the value of [fn] after exactly [N + 1] attempts,
    and with a budget [0 <= R < N] it throws the max-retries error after
    exactly [R + 1] attempts. *)
Theorem retry_fails_then_succeeds N w v w' :
  fails_then_succeeds fn N w v w' ->
  forall (R interval : Z) (exponential : bool) (steps : nat),
    (0 <= R)%Z -> Z.to_nat R < steps ->
    let r := retry steps fn R interval exponential w in
    if (Z.of_nat N <=? R)%Z then
      outcome_of r = Return v /\ world_of r = w'
      /\ attempts (events_of r) = N + 1
    else
      outcome_of r = Throw max_retries_error
      /\ attempts (events_of r) = Z.to_nat R + 1.
Proof.
  induction 1 as [w v w' evs Hfn Hevs | n w e w1 evs v w' Hfn Hevs _ IH];
    intros R interval exponential steps HR Hsteps;
    (destruct steps as [|steps]; [lia|]); cbv zeta.
  - rewrite (retry_resolved _ _ _ _ _ _ _ _ Hfn).
    replace (Z.of_nat 0 <=? R)%Z with true by (symmetry; apply Z.leb_le; lia).
    repeat split. unfold events_of, attempts in *. simpl. now rewrite Hevs.
  - destruct (Z.eq_dec R 0) as [-> | HR0].
    + rewrite (retry_exhausted _ _ _ _ _ _ _ Hfn).
      replace (Z.of_nat (S n) <=? 0)%Z with false by (symmetry; apply Z.leb_gt; lia).
      split; [reflexivity|]. unfold events_of, attempts in *. simpl. now rewrite Hevs.
    + rewrite (retry_rejected _ _ _ _ _ _ _ _ Hfn HR0). cbv zeta.
      specialize (IH (R - 1)%Z (if exponential then interval * 2 else interval)%Z
                     exponential steps ltac:(lia) ltac:(lia)).
      cbv zeta in IH.
      replace (Z.of_nat (S n) <=? R)%Z with (Z.of_nat n <=? R - 1)%Z
        by (destruct (Z.leb_spec (Z.of_nat n) (R - 1));
            symmetry; [apply Z.leb_le | apply Z.leb_gt]; lia).
      unfold outcome_of, world_of, events_of in *; cbn [fst snd] in *.
      change (Attempt :: evs ++ ?l)%list with ([Attempt] ++ evs ++ l)%list.
      rewrite !attempts_app, Hevs.
      change (attempts [Attempt]) with 1.
      change (attempts (grace_period e R interval)) with 0.
      destruct (Z.of_nat n <=? R - 1)%Z.
      * destruct IH as (Ho & Hw & Ha). repeat split; trivial. lia.
      * destruct IH as (Ho & Ha). split; trivial. lia.
Qed.

(** C6, amended: when the first attempt of [fn] fails, [retry] with a budget
    of zero makes that one attempt and nothing more (no warning, no delay),
    and throws the max-retries error; the error of the attempt is dropped. *)
Theorem retry_zero_budget steps interval exponential w e w' evs :
  fn w = (Throw e, w', evs) ->
  retry (S steps) fn 0 interval exponential w
  = (Throw max_retries_error, w', Attempt :: evs).
Proof. apply retry_exhausted. Qed.

(** C10: with a budget [R >= 0] and a function that settles, [retry] settles
    within [R + 1] calls; with a negative budget and a function that always
    fails it never settles. *)
Theorem retry_terminates_iff_budget_reaches_zero :
  settles fn ->
  forall (R interval : Z) (exponential : bool) (w : World),
    ((0 <= R)%Z ->
     forall steps, Z.to_nat R < steps ->
       outcome_of (retry steps fn R interval exponential w) <> Pending)
    /\ ((R < 0)%Z -> always_fails fn ->
        forall steps,
          outcome_of (retry steps fn R interval exponential w) = Pending).
Proof.
  intros Hsettles R interval exponential w. split.
  - intros HR steps. revert R interval w HR.
    induction steps as [|steps IH]; intros R interval w HR Hsteps; [lia|].
    destruct (fn w) as [[[v | e |] w1] evs] eqn:Hfn.
    + now rewrite (retry_resolved _ _ _ _ _ _ _ _ Hfn).
    + destruct (Z.eq_dec R 0) as [-> | HR0].
      * now rewrite (retry_exhausted _ _ _ _ _ _ _ Hfn).
      * rewrite (retry_rejected _ _ _ _ _ _ _ _ Hfn HR0). cbv zeta.
        unfold outcome_of at 1. cbn [fst]. apply IH; lia.
    + exfalso. apply (Hsettles w). now rewrite Hfn.
  - intros HR Hfails steps. revert R interval w HR.
    induction steps as [|steps IH]; intros R interval w HR; [reflexivity|].
    destruct (Hfails w) as [e He].
    destruct (fn w) as [[o w1] evs] eqn:Hfn.
    unfold outcome_of in He; cbn in He; subst o.
    rewrite (retry_rejected _ _ _ _ _ _ _ _ Hfn) by lia. cbv zeta.
    unfold outcome_of at 1. cbn [fst]. apply IH; lia.
Qed.

(** The docstring of [retry]: a budget of -1 keeps retrying.  With a negative
    budget the zero test never succeeds, so [retry] goes on until [fn]
    succeeds, after [N + 1] attempts. *)
Lemma retry_negative_budget_keeps_retrying N w v w' :
  fails_then_succeeds fn N w v w' ->
  forall (R interval : Z) (exponential : bool) (steps : nat),
    (R < 0)%Z -> N < steps ->
    let r := retry steps fn R interval exponential w in
    outcome_of r = Return v /\ world_of r = w' /\ attempts (events_of r) = N + 1.
Proof.
  induction 1 as [w v w' evs Hfn Hevs | n w e w1 evs v w' Hfn Hevs _ IH];
    intros R interval exponential steps HR Hsteps;
    (destruct steps as [|steps]; [lia|]); cbv zeta.
  - rewrite (retry_resolved _ _ _ _ _ _ _ _ Hfn).
    repeat split. unfold events_of, attempts in *. simpl. now rewrite Hevs.
  - rewrite (retry_rejected _ _ _ _ _ _ _ _ Hfn) by lia. cbv zeta.
    specialize (IH (R - 1)%Z (if exponential then interval * 2 else interval)%Z
                   exponential steps ltac:(lia) ltac:(lia)).
    cbv zeta in IH. destruct IH as (Ho & Hw & Ha).
    unfold outcome_of, world_of, events_of in *; cbn [fst snd] in *.
    change (Attempt :: evs ++ ?l)%list with ([Attempt] ++ evs ++ l)%list.
    rewrite !attempts_app, Hevs.
    change (attempts [Attempt]) with 1.
    change (attempts (grace_period e R interval)) with 0.
    repeat split; trivial. lia.
Qed.

End RetryFacts.

(** The sample download fails twice on [Sample.flaky 2] and then succeeds. *)
Lemma sample_download_fails_twice (url : string) :
  fails_then_succeeds (call Sample.host (DownloadTool url)) 2 (Sample.flaky 2)
    "/tmp/download" (Sample.add_files [("/tmp/download", IsFile)] Sample.empty).
Proof.
  eapply fts_failure; [reflexivity | reflexivity |].
  eapply fts_failure; [reflexivity | reflexivity |].
  eapply fts_success; reflexivity.
Qed.

Lemma retry_fails_then_succeeds_witness :
  let fn := call Sample.host (DownloadTool "https://example.invalid/jdk") in
  (outcome_of (retry 11 fn 10 1000 true (Sample.flaky 2)) = Return "/tmp/download"
   /\ world_of (retry 11 fn 10 1000 true (Sample.flaky 2))
      = Sample.add_files [("/tmp/download", IsFile)] Sample.empty
   /\ attempts (events_of (retry 11 fn 10 1000 true (Sample.flaky 2))) = 3)
  /\ (outcome_of (retry 2 fn 1 1000 true (Sample.flaky 2)) = Throw max_retries_error
      /\ attempts (events_of (retry 2 fn 1 1000 true (Sample.flaky 2))) = 2).
Proof.
  intros fn. split.
  - apply (retry_fails_then_succeeds Sample.World fn 2 _ _ _
             (sample_download_fails_twice _) 10%Z 1000%Z true 11);
      [discriminate | apply le_n].
  - apply (retry_fails_then_succeeds Sample.World fn 2 _ _ _
             (sample_download_fails_twice _) 1%Z 1000%Z true 2);
      [discriminate | apply le_n].
Defined.

(** C6, as stated, fails: with a budget of zero the error that [retry]
    throws is not the error of the failed attempt. *)
Lemma retry_zero_budget_drops_error :
  let fn := call Sample.host (DownloadTool "https://example.invalid/jdk") in
  outcome_of (fn (Sample.flaky 1)) = Throw (JsError "socket hang up")
  /\ outcome_of (retry 1 fn 0 1000 true (Sample.flaky 1))
     <> Throw (JsError "socket hang up").
Proof. split; [reflexivity | discriminate]. Qed.

Lemma retry_zero_budget_witness :
  retry 1 (call Sample.host (DownloadTool "https://example.invalid/jdk"))
    0 1000 true (Sample.flaky 1)
  = (Throw max_retries_error, Sample.empty,
     [Attempt; Call (DownloadTool "https://example.invalid/jdk")]).
Proof.
  apply (retry_zero_budget Sample.World
           (call Sample.host (DownloadTool "https://example.invalid/jdk"))
           0 1000%Z true (Sample.flaky 1) (JsError "socket hang up")).
  reflexivity.
Defined.

Lemma throw_settles (e : Error) : settles (throw (World := Sample.World) (A := string) e).
Proof. intros w. discriminate. Qed.

Lemma throw_always_fails (e : Error) :
  always_fails (throw (World := Sample.World) (A := string) e).
Proof. intros w. now exists e. Qed.

Lemma retry_terminates_iff_budget_reaches_zero_witness :
  let fn := throw (World := Sample.World) (A := string) (JsError "offline") in
  outcome_of (retry 11 fn 10 1000 true Sample.empty) <> Pending
  /\ (forall steps, outcome_of (retry steps fn (-1) 1000 true Sample.empty) = Pending).
Proof.
  intros fn. split.
  - apply (retry_terminates_iff_budget_reaches_zero Sample.World fn
             (throw_settles _) 10%Z 1000%Z true Sample.empty);
      [discriminate | apply le_n].
  - apply (retry_terminates_iff_budget_reaches_zero Sample.World fn
             (throw_settles _) (-1)%Z 1000%Z true Sample.empty);
      [reflexivity | apply throw_always_fails].
Defined.

(** ** Archive Extractor *)

Section ExtractFacts.

Variable World : Type.
Variable fs : World -> string -> option Stats.
Variable host : Command -> World -> (Error + string) * World.

(** The call of an extractor is the only event of the dispatch. *)
Ltac extractor_called :=
  cbn [orb];
  match goal with
  | |- context [call ?h ?c ?w] =>
      exists c; split; [reflexivity |];
      unfold call, events_of, ret; destruct (h c w) as [[? | ?] ?]; reflexivity
  end.

(** C5: [extractFiles] reports its three errors, each without a call to an
    extractor and without a change of the world.  A source path that does
    not exist fails with the not-found error of [stat], and one that [stat]
    cannot reach for another reason with that system error; a source path
    that is a directory fails with the is-a-directory error; and a source
    that is there and is no directory fails with the unknown-compression
    error when the ending is not one of .tar, .tar.gz, .zip and .7z, whereas
    one of these endings calls an extractor, once. *)
Theorem extractFiles_errors (file fileEnding destinationFolder : string) (w : World) :
  let r := extractFiles fs host file fileEnding destinationFolder w in
  match fs w file with
  | None => r = (Throw (not_found_error file), w, [])
  | Some (Unstatable code) => r = (Throw (SystemError code "stat" file), w, [])
  | Some (IsDirectory _) => r = (Throw (is_a_directory_error file), w, [])
  | Some _ =>
      (~ In fileEnding known_endings ->
       r = (Throw (unknown_compression_error file), w, []))
      /\ (In fileEnding known_endings ->
          exists c, is_extraction c = true /\ events_of r = [Call c])
  end.
Proof.
  cbv zeta. unfold extractFiles, bind, statSync, known_endings. simpl In.
  destruct (fs w file) as [[| entries | | code] |];
    cbn [object_truthy negb isDirectory]; try reflexivity.
  all: destruct (String.eqb_spec fileEnding ".tar") as [-> | N1];
    [ split; [intros H; exfalso; apply H; now left | intros _; extractor_called] |].
  all: destruct (String.eqb_spec fileEnding ".tar.gz") as [-> | N2];
    [ split; [intros H; exfalso; apply H; now right; left | intros _; extractor_called] |].
  all: destruct (String.eqb_spec fileEnding ".zip") as [-> | N3];
    [ split; [intros H; exfalso; apply H; now right; right; left
             | intros _; extractor_called] |].
  all: destruct (String.eqb_spec fileEnding ".7z") as [-> | N4];
    [ split; [intros H; exfalso; apply H; now right; right; right; left
             | intros _; extractor_called] |].
  all: split; [reflexivity | intros [H | [H | [H | [H | []]]]]; congruence].
Qed.

End ExtractFacts.

Lemma extractFiles_errors_witness :
  extractFiles Sample.fs Sample.host "/tmp/jdk.rar" ".rar" "/tmp/out" Sample.empty
  = (Throw (not_found_error "/tmp/jdk.rar"), Sample.empty, [])
  /\ extractFiles Sample.fs Sample.host "/jdk/rt.pack/jdk.tar.gz" ".tar.gz" "/tmp/out"
       Sample.packed
     = (Throw (SystemError "ENOTDIR" "stat" "/jdk/rt.pack/jdk.tar.gz"),
        Sample.packed, [])
  /\ extractFiles Sample.fs Sample.host "/jdk" ".rar" "/tmp/out" Sample.packed
     = (Throw (is_a_directory_error "/jdk"), Sample.packed, [])
  /\ extractFiles Sample.fs Sample.host "/jdk/rt.pack" ".rar" "/tmp/out" Sample.packed
     = (Throw (unknown_compression_error "/jdk/rt.pack"), Sample.packed, [])
  /\ (exists c,
        is_extraction c = true
        /\ events_of
             (extractFiles Sample.fs Sample.host "/jdk/rt.pack" ".tar.gz" "/tmp/out"
                Sample.packed) = [Call c]).
Proof.
  split; [| split; [| split; [| split]]].
  - exact (extractFiles_errors Sample.World Sample.fs Sample.host
             "/tmp/jdk.rar" ".rar" "/tmp/out" Sample.empty).
  - exact (extractFiles_errors Sample.World Sample.fs Sample.host
             "/jdk/rt.pack/jdk.tar.gz" ".tar.gz" "/tmp/out" Sample.packed).
  - exact (extractFiles_errors Sample.World Sample.fs Sample.host
             "/jdk" ".rar" "/tmp/out" Sample.packed).
  - apply (extractFiles_errors Sample.World Sample.fs Sample.host
             "/jdk/rt.pack" ".rar" "/tmp/out" Sample.packed).
    intros [H | [H | [H | [H | []]]]]; discriminate.
  - apply (extractFiles_errors Sample.World Sample.fs Sample.host
             "/jdk/rt.pack" ".tar.gz" "/tmp/out" Sample.packed).
    right; left; reflexivity.
Defined.

(** ** Post-Extract Normalizer *)

Section UnpackFacts.

Variable World : Type.
Variable fs : World -> string -> option Stats.
Variable host : Command -> World -> (Error + string) * World.
Variable platform : string.
Variable path : PathModule.

Lemma for_each_no_effect (xs : list string) (body : string -> M World unit) (w : World) :
  (forall x, In x xs -> body x w = (Return tt, w, [])) ->
  for_each xs body w = (Return tt, w, []).
Proof.
  induction xs as [|x xs IH]; intros H; [reflexivity|].
  cbn [for_each]. unfold bind. rewrite (H x (or_introl eq_refl)).
  rewrite IH; [reflexivity|]. intros y Hy. apply H. now right.
Qed.

(** What [unpackJars] does with a path that names a directory: it looks for
    the paths [0], [1], ... under it, not for its entries; when none of them
    exists, that is all it does. *)
Lemma unpackJars_looks_up_indices
  (steps : nat) (fsPath javaBinPath : string) (entries : list string) (w : World) :
  fs w fsPath = Some (IsDirectory entries) ->
  (forall i, i < List.length entries ->
             fs w (path_join path [fsPath; Js.of_nat i]) = None) ->
  unpackJars fs host platform path (S (S steps)) fsPath javaBinPath w
  = (Return tt, w, []).
Proof.
  intros Hdir Hnone.
  cbn [unpackJars]. unfold bind at 1. unfold existsSync, read. rewrite Hdir.
  unfold bind at 1. unfold lstatSync. rewrite Hdir. cbn [isDirectory].
  unfold bind at 1. unfold readdirSync. rewrite Hdir.
  rewrite for_each_no_effect; [reflexivity|].
  intros x Hx. unfold array_keys in Hx.
  apply in_map_iff in Hx as (i & <- & Hi). apply in_seq in Hi.
  unfold bind. rewrite Hnone by lia. reflexivity.
Qed.

End UnpackFacts.

(** C2 at the input on which the code departs from it: the directory [/jdk]
    holds the regular file [rt.pack]; on the directory [unpackJars] calls
    nothing, although on the path of the file itself it calls the unpack
    tool once, with the sibling [.jar] name. *)
Theorem unpackJars_misses_pack_in_directory :
  Sample.fs Sample.packed "/jdk" = Some (IsDirectory ["rt.pack"])
  /\ Sample.fs Sample.packed "/jdk/rt.pack" = Some IsFile
  /\ unpackJars Sample.fs Sample.host "linux" Posix.path 8 "/jdk" "/jdk/bin"
       Sample.packed
     = (Return tt, Sample.packed, [])
  /\ unpackJars Sample.fs Sample.host "linux" Posix.path 8 "/jdk/rt.pack" "/jdk/bin"
       Sample.packed
     = (Return tt, Sample.packed,
        [Call (Exec (quoted "/jdk/bin/unpack200")
                 [" " ++ quoted "/jdk/rt.pack" ++ " " ++ quoted "/jdk/rt.jar"])]).
Proof. repeat split. Qed.

(** ** The pipeline *)

Section PipelineFacts.

Variable World : Type.
Variable fs : World -> string -> option Stats.
Variable tc_find : World -> string -> string -> string -> string.
Variable host : Command -> World -> (Error + string) * World.
Variable random_below : Z -> World -> Z * World.
Variable platform : string.
Variable env : string -> option string.
Variable path : PathModule.

(** C9: when the probe of the tool cache returns a path, [downloadJavaBinary]
    calls no collaborator (no download, no extraction, no store), leaves the
    world as it found it, and publishes the home variable, the variable
    qualified by version and architecture and the [bin] directory of the
    cached path. *)
Theorem downloadJavaBinary_cache_hit
  (steps : nat) (release_type version jvm_impl os arch heap_size release : string)
  (w : World) (toolPath : string) :
  tc_find w toolName
    (versionSpec_of release_type version jvm_impl os arch heap_size release) arch
  = toolPath ->
  Js.truthy toolPath = true ->
  let r :=
    downloadJavaBinary fs tc_find host random_below platform env path steps
      release_type version jvm_impl os arch heap_size release w in
  r = (Return tt, w,
       [ Debug ("Tool found in cache " ++ toolPath);
         ExportVariable "JAVA_HOME" toolPath;
         ExportVariable ("JAVA_HOME_" ++ version ++ "_" ++ arch) toolPath;
         AddPath (path_join path [toolPath; "bin"]) ])
  /\ existsb is_call (events_of r) = false.
Proof.
  intros Hfind Htruthy. cbv zeta.
  assert (E : downloadJavaBinary fs tc_find host random_below platform env path steps
                release_type version jvm_impl os arch heap_size release w
              = (Return tt, w,
                 [ Debug ("Tool found in cache " ++ toolPath);
                   ExportVariable "JAVA_HOME" toolPath;
                   ExportVariable ("JAVA_HOME_" ++ version ++ "_" ++ arch) toolPath;
                   AddPath (path_join path [toolPath; "bin"]) ])).
  { unfold downloadJavaBinary. unfold bind at 1. unfold read. rewrite Hfind.
    rewrite Htruthy. reflexivity. }
  rewrite E. split; reflexivity.
Qed.

End PipelineFacts.

Lemma downloadJavaBinary_cache_hit_witness :
  Sample.run_download 3 "ga" "11" "hotspot" "x64" "normal" "latest" Sample.warm
  = (Return tt, Sample.warm,
     [ Debug "Tool found in cache /cache/AdoptOpenJDK/11/x64";
       ExportVariable "JAVA_HOME" "/cache/AdoptOpenJDK/11/x64";
       ExportVariable "JAVA_HOME_11_x64" "/cache/AdoptOpenJDK/11/x64";
       AddPath "/cache/AdoptOpenJDK/11/x64/bin" ])
  /\ existsb is_call
       (events_of
          (Sample.run_download 3 "ga" "11" "hotspot" "x64" "normal" "latest"
             Sample.warm)) = false.
Proof.
  apply (downloadJavaBinary_cache_hit Sample.World Sample.fs Sample.tc_find
           Sample.host Sample.random_below "linux" Sample.env Posix.path
           3 "ga" "11" "hotspot" "linux" "x64" "normal" "latest" Sample.warm
           "/cache/AdoptOpenJDK/11/x64");
    reflexivity.
Defined.

(** On a cold cache the same request downloads, extracts and stores; and the
    packed archive that the unpacked tree holds under [lib] is never handed
    to the unpack tool. *)
Example downloadJavaBinary_cache_miss :
  map (fun e => match e with Call c => Some c | _ => None end)
    (filter is_call
       (events_of
          (Sample.run_download 16 "ga" "11" "hotspot" "x64" "normal" "latest"
             Sample.empty)))
  = [ Some (DownloadTool "https://api.adoptopenjdk.net/v3/binary/latest/11/ga/linux/x64/jdk/hotspot/normal/adoptopenjdk");
      Some (MkdirP "/home/actions/temp/adoptopenjdk_42");
      Some (ExtractTar "/tmp/download" "/home/actions/temp/adoptopenjdk_42");
      Some (CacheDir "/home/actions/temp/adoptopenjdk_42/jdk-11" "AdoptOpenJDK"
              "1.0.0-ga-11-hotspot-normal-latest" "x64") ].
Proof. reflexivity. Qed.

(** * Further properties *)

(** ** Runs of the monad *)

Section MonadFacts.

Variable World : Type.

Lemma bind_return {A B} (m : M World A) (k : A -> M World B) w a w1 evs :
  m w = (Return a, w1, evs) ->
  bind m k w
  = (outcome_of (k a w1), world_of (k a w1), (evs ++ events_of (k a w1))%list).
Proof.
  intros H. unfold bind. rewrite H. now destruct (k a w1) as [[r w2] evs2].
Qed.

Lemma bind_throw {A B} (m : M World A) (k : A -> M World B) w e w1 evs :
  m w = (Throw e, w1, evs) -> bind m k w = (Throw e, w1, evs).
Proof. intros H. unfold bind. now rewrite H. Qed.

Lemma bind_pending {A B} (m : M World A) (k : A -> M World B) w w1 evs :
  m w = (Pending, w1, evs) -> bind m k w = (Pending, w1, evs).
Proof. intros H. unfold bind. now rewrite H. Qed.

Lemma bind_read {A B} (f : World -> A) (k : A -> M World B) w :
  bind (read f) k w = k (f w) w.
Proof. unfold bind, read. now destruct (k (f w) w) as [[r w2] evs2]. Qed.

Lemma bind_emit {B} (e : Event) (k : unit -> M World B) w :
  bind (emit e) k w
  = (outcome_of (k tt w), world_of (k tt w), e :: events_of (k tt w)).
Proof. unfold bind, emit. now destruct (k tt w) as [[r w2] evs2]. Qed.

(** A property of events that every part of a run keeps is kept by the run. *)
Lemma Forall_bind {A B} (P : Event -> Prop) (m : M World A) (k : A -> M World B) w :
  Forall P (events_of (m w)) ->
  (forall a w1, Forall P (events_of (k a w1))) ->
  Forall P (events_of (bind m k w)).
Proof.
  intros Hm Hk. unfold bind.
  destruct (m w) as [[[a | e |] w1] evs1]; trivial.
  specialize (Hk a w1). destruct (k a w1) as [[r w2] evs2].
  cbn in *. apply Forall_app. now split.
Qed.

Lemma Forall_bind_run {A B} (P : Event -> Prop) (m : M World A) (k : A -> M World B) w :
  Forall P (events_of (m w)) ->
  (forall a w1 e1, m w = (Return a, w1, e1) -> Forall P (events_of (k a w1))) ->
  Forall P (events_of (bind m k w)).
Proof.
  intros Hm Hk. unfold bind.
  destruct (m w) as [[[a | e |] w1] evs1] eqn:E; trivial.
  specialize (Hk a w1 evs1 eq_refl). destruct (k a w1) as [[r w2] evs2].
  cbn in *. apply Forall_app. now split.
Qed.

Lemma Forall_try_catch {A} (P : Event -> Prop) (m : M World A) (h : Error -> M World A) w :
  Forall P (events_of (m w)) ->
  (forall e w1, Forall P (events_of (h e w1))) ->
  Forall P (events_of (try_catch m h w)).
Proof.
  intros Hm Hh. unfold try_catch.
  destruct (m w) as [[[a | e |] w1] evs1]; trivial.
  specialize (Hh e w1). destruct (h e w1) as [[r w2] evs2].
  cbn in *. apply Forall_app. now split.
Qed.

Lemma Forall_for_each {A} (P : Event -> Prop) (xs : list A) (body : A -> M World unit) w :
  (forall x w1, Forall P (events_of (body x w1))) ->
  Forall P (events_of (for_each xs body w)).
Proof.
  intros Hb. revert w. induction xs as [|x xs IH]; intros w; cbn [for_each].
  - constructor.
  - apply Forall_bind; [apply Hb | intros _ w1; apply IH].
Qed.

Lemma Forall_emit (P : Event -> Prop) (e : Event) w :
  P e -> Forall P (events_of (emit (World := World) e w)).
Proof. intros H. repeat constructor. exact H. Qed.

Lemma Forall_call (P : Event -> Prop) host (c : Command) (w : World) :
  P (Call c) -> Forall P (events_of (call host c w)).
Proof.
  intros H. unfold call. destruct (host c w) as [[e | v] w1];
    repeat constructor; exact H.
Qed.

End MonadFacts.

(** The steps that read and do not act emit nothing. *)
Ltac silent :=
  unfold existsSync, statSync, lstatSync, readdirSync, read, random, ret, throw,
    pending, events_of;
  repeat match goal with
         | |- context [match ?x with _ => _ end] => destruct x
         end;
  cbn; constructor.

(** ** Retrying Fetcher, continued *)

Section RetryBounds.

Variable World : Type.
Variable fn : M World string.

Lemma timeouts_app (xs ys : list Event) :
  timeouts (xs ++ ys) = (timeouts xs ++ timeouts ys)%list.
Proof. unfold timeouts. apply flat_map_app. Qed.

Lemma backoff_S (exponential : bool) (interval : Z) (n : nat) :
  backoff exponential interval (S n)
  = interval :: backoff exponential (if exponential then interval * 2 else interval)%Z n.
Proof.
  unfold backoff. cbn [seq map]. f_equal.
  - destruct exponential; [apply Z.mul_1_r | reflexivity].
  - rewrite <- seq_shift, map_map. apply map_ext. intros k.
    destruct exponential; [| reflexivity].
    rewrite Nat2Z.inj_succ, Z.pow_succ_r by lia. ring.
Qed.

(** X4. The only error [retry] throws is the max-retries error: an error of [fn]
    never reaches the caller. *)
Theorem retry_throws_only_max_retries steps R interval exponential w e :
  outcome_of (retry steps fn R interval exponential w) = Throw e ->
  e = max_retries_error.
Proof.
  revert R interval w.
  induction steps as [|steps IH]; intros R interval w H; [discriminate|].
  destruct (fn w) as [[[v | err |] w1] evs] eqn:Hfn.
  - rewrite (retry_resolved World fn _ _ _ _ _ _ _ _ Hfn) in H. discriminate.
  - destruct (Z.eq_dec R 0) as [-> | HR0].
    + rewrite (retry_exhausted World fn _ _ _ _ _ _ _ Hfn) in H.
      now injection H.
    + rewrite (retry_rejected World fn _ _ _ _ _ _ _ _ Hfn HR0) in H.
      cbv zeta in H. unfold outcome_of at 1 in H. cbn [fst] in H.
      now apply IH in H.
  - rewrite (retry_pending World fn _ _ _ _ _ _ _ Hfn) in H. discriminate.
Qed.

(** X5. With a budget [R >= 0], [retry] calls [fn] at most [R + 1] times,
    whatever [fn] does. *)
Theorem retry_attempts_bounded steps R interval exponential w :
  (forall w', attempts (events_of (fn w')) = 0) ->
  (0 <= R)%Z ->
  attempts (events_of (retry steps fn R interval exponential w)) <= Z.to_nat R + 1.
Proof.
  intros Hq. revert R interval w.
  induction steps as [|steps IH]; intros R interval w HR; [cbn; lia|].
  pose proof (Hq w) as Hw.
  destruct (fn w) as [[[v | err |] w1] evs] eqn:Hfn;
    unfold events_of in Hw; cbn [snd] in Hw.
  - rewrite (retry_resolved World fn _ _ _ _ _ _ _ _ Hfn).
    unfold events_of. cbn [snd].
    change (Attempt :: evs) with ([Attempt] ++ evs)%list.
    rewrite attempts_app, Hw. change (attempts [Attempt]) with 1. lia.
  - destruct (Z.eq_dec R 0) as [-> | HR0].
    + rewrite (retry_exhausted World fn _ _ _ _ _ _ _ Hfn).
      unfold events_of. cbn [snd].
      change (Attempt :: evs) with ([Attempt] ++ evs)%list.
      rewrite attempts_app, Hw. change (attempts [Attempt]) with 1. lia.
    + rewrite (retry_rejected World fn _ _ _ _ _ _ _ _ Hfn HR0). cbv zeta.
      specialize (IH (R - 1)%Z (if exponential then interval * 2 else interval)%Z
                     w1 ltac:(lia)).
      unfold events_of at 1. cbn [snd].
      change (Attempt :: evs ++ ?l)%list with ([Attempt] ++ evs ++ l)%list.
      rewrite !attempts_app, Hw.
      change (attempts [Attempt]) with 1.
      change (attempts (grace_period err R interval)) with 0.
      lia.
  - rewrite (retry_pending World fn _ _ _ _ _ _ _ Hfn).
    unfold events_of. cbn [snd].
    change (Attempt :: evs) with ([Attempt] ++ evs)%list.
    rewrite attempts_app, Hw. change (attempts [Attempt]) with 1. lia.
Qed.

(** X6. The delays between the attempts: when [fn] fails [N] times before it
    succeeds and the budget is [R >= 0], [retry] waits [min N R] times, for
    [interval] each time, or for [interval], [2 * interval], [4 * interval],
    ... in the exponential mode. *)
Theorem retry_backoff_schedule N w v w' :
  fails_then_succeeds fn N w v w' ->
  quiet fn ->
  forall (R interval : Z) (exponential : bool) (steps : nat),
    (0 <= R)%Z -> Z.to_nat R < steps ->
    timeouts (events_of (retry steps fn R interval exponential w))
    = backoff exponential interval (Nat.min N (Z.to_nat R)).
Proof.
  intros Hfts Hquiet.
  induction Hfts as [w v w' evs Hfn Hevs | n w e w1 evs v w' Hfn Hevs _ IH];
    intros R interval exponential steps HR Hsteps;
    (destruct steps as [|steps]; [lia|]);
    destruct (Hquiet w) as [Hq _]; rewrite Hfn in Hq; unfold events_of in Hq;
    cbn [snd] in Hq.
  - rewrite (retry_resolved World fn _ _ _ _ _ _ _ _ Hfn).
    unfold events_of. cbn [snd]. change (timeouts (Attempt :: evs)) with (timeouts evs).
    now rewrite Hq.
  - destruct (Z.eq_dec R 0) as [-> | HR0].
    + rewrite (retry_exhausted World fn _ _ _ _ _ _ _ Hfn).
      unfold events_of. cbn [snd]. change (timeouts (Attempt :: evs)) with (timeouts evs).
      now rewrite Hq.
    + rewrite (retry_rejected World fn _ _ _ _ _ _ _ _ Hfn HR0). cbv zeta.
      specialize (IH (R - 1)%Z (if exponential then interval * 2 else interval)%Z
                     exponential steps ltac:(lia) ltac:(lia)).
      unfold events_of at 1. cbn [snd].
      change (Attempt :: evs ++ ?l)%list with ([Attempt] ++ evs ++ l)%list.
      rewrite !timeouts_app, Hq, IH.
      replace (Nat.min (S n) (Z.to_nat R)) with (S (Nat.min n (Z.to_nat (R - 1))))
        by lia.
      rewrite backoff_S. reflexivity.
Qed.

End RetryBounds.

Lemma call_unmarked {World : Type} host (c : Command) (w : World) :
  attempts (events_of (call host c w)) = 0.
Proof. unfold call. now destruct (host c w) as [[e | v] w1]. Qed.

Lemma call_quiet {World : Type} (host : Command -> World -> (Error + string) * World)
  (c : Command) : quiet (call host c).
Proof. intros w. unfold call. now destruct (host c w) as [[e | v] w1]. Qed.

Lemma retry_throws_only_max_retries_witness :
  outcome_of
    (retry 3 (call Sample.host (DownloadTool "https://example.invalid/jdk"))
       1 1000 true (Sample.flaky 5))
  = Throw max_retries_error
  /\ max_retries_error = JsError "Unable to download JDK, max retries reached".
Proof.
  split; [reflexivity|].
  symmetry.
  apply (retry_throws_only_max_retries Sample.World
           (call Sample.host (DownloadTool "https://example.invalid/jdk"))
           3 1%Z 1000%Z true (Sample.flaky 5)).
  reflexivity.
Defined.

Lemma retry_attempts_bounded_witness :
  attempts
    (events_of
       (retry 7 (call Sample.host (DownloadTool "https://example.invalid/jdk"))
          2 1000 true (Sample.flaky 5))) <= 3.
Proof.
  apply (retry_attempts_bounded Sample.World
           (call Sample.host (DownloadTool "https://example.invalid/jdk"))
           7 2%Z 1000%Z true (Sample.flaky 5)).
  - intros w'. apply call_unmarked.
  - discriminate.
Defined.

Lemma retry_backoff_schedule_witness :
  timeouts
    (events_of
       (retry 11 (call Sample.host (DownloadTool "https://example.invalid/jdk"))
          10 1000 true (Sample.flaky 2)))
  = [1000; 2000]%Z.
Proof.
  apply (retry_backoff_schedule Sample.World
           (call Sample.host (DownloadTool "https://example.invalid/jdk"))
           2 _ _ _ (sample_download_fails_twice _) (call_quiet _ _)
           10%Z 1000%Z true 11);
    [discriminate | apply le_n].
Defined.

(** ** Spec Resolver, continued *)

(** X1. [getReleaseType] resolves its aliases in one step: its result is never
    an alias, and resolving twice is resolving once. *)
Theorem getReleaseType_idempotent (release_type : string) :
  getReleaseType (getReleaseType release_type) = getReleaseType release_type
  /\ getReleaseType release_type <> "releases"
  /\ getReleaseType release_type <> "nightly".
Proof.
  unfold getReleaseType.
  destruct (String.eqb_spec release_type "releases") as [-> | N1].
  - repeat split; discriminate.
  - destruct (String.eqb_spec release_type "nightly") as [-> | N2].
    + repeat split; discriminate.
    + apply String.eqb_neq in N1 as E1. apply String.eqb_neq in N2 as E2.
      rewrite E1, E2. repeat split; assumption.
Qed.

(** X2. The download URL sees a request through the aliases: requests whose
    release types and versions resolve to the same values get the same URL,
    and the URL of an exact release does not depend on the release type or
    on the version at all. *)
Theorem getAdoptOpenJdkUrl_respects_aliases
  (release_type release_type' version version' : string)
  (jvm_impl os arch heap_size release : string) :
  (getReleaseType release_type = getReleaseType release_type' ->
   getFeatureVersion version = getFeatureVersion version' ->
   getAdoptOpenJdkUrl release_type version jvm_impl os arch heap_size release
   = getAdoptOpenJdkUrl release_type' version' jvm_impl os arch heap_size release)
  /\ (release <> "latest" ->
      getAdoptOpenJdkUrl release_type version jvm_impl os arch heap_size release
      = getAdoptOpenJdkUrl release_type' version' jvm_impl os arch heap_size release).
Proof.
  unfold getAdoptOpenJdkUrl. split.
  - intros -> ->. reflexivity.
  - intros H. apply String.eqb_neq in H. now rewrite H.
Qed.

Lemma getAdoptOpenJdkUrl_respects_aliases_witness :
  getAdoptOpenJdkUrl "releases" "openjdk11" "hotspot" "linux" "x64" "normal" "latest"
  = getAdoptOpenJdkUrl "ga" "11" "hotspot" "linux" "x64" "normal" "latest"
  /\ getAdoptOpenJdkUrl "nightly" "8" "hotspot" "linux" "x64" "normal" "jdk-11.0.4+11.4"
     = getAdoptOpenJdkUrl "ga" "11" "hotspot" "linux" "x64" "normal" "jdk-11.0.4+11.4".
Proof.
  split.
  - apply (proj1 (getAdoptOpenJdkUrl_respects_aliases "releases" "ga" "openjdk11"
                    "11" "hotspot" "linux" "x64" "normal" "latest")); reflexivity.
  - apply (proj2 (getAdoptOpenJdkUrl_respects_aliases "nightly" "ga" "8" "11"
                    "hotspot" "linux" "x64" "normal" "jdk-11.0.4+11.4")).
    discriminate.
Defined.

(** ** Post-Extract Normalizer, continued *)

Section WalkFacts.

Variable World : Type.
Variable fs : World -> string -> option Stats.
Variable host : Command -> World -> (Error + string) * World.
Variable platform : string.
Variable path : PathModule.

(** X7. Whatever the tree and however deep the walk, the only collaborator that
    [unpackJars] calls is the unpack tool under [javaBinPath]. *)
Theorem unpackJars_calls_only_unpack200 (steps : nat) (fsPath javaBinPath : string)
  (w : World) :
  Forall
    (fun e =>
       exists args,
         e = Call (Exec
                     (quoted
                        (path_join path
                           [javaBinPath;
                            if platform =? "win32" then "unpack200.exe"
                            else "unpack200"]))
                     args))
    (events_of (unpackJars fs host platform path steps fsPath javaBinPath w)).
Proof.
  revert fsPath w. induction steps as [|steps IH]; intros fsPath w; cbn [unpackJars].
  - constructor.
  - apply Forall_bind; [silent|]. intros ex w1. destruct ex; [|silent].
    apply Forall_bind; [silent|]. intros st w2.
    destruct (isDirectory st).
    + apply Forall_bind; [silent|]. intros listing w3.
      apply Forall_for_each. intros x w4. apply IH.
    + destruct (Js.toLowerCase (path_extname path fsPath) =? ".pack"); [|silent].
      apply Forall_bind; [|intros; silent].
      apply Forall_call. eexists. reflexivity.
Qed.

End WalkFacts.

(** ** The pipeline, continued *)

Section PipelineShape.

Variable World : Type.
Variable fs : World -> string -> option Stats.
Variable tc_find : World -> string -> string -> string -> string.
Variable host : Command -> World -> (Error + string) * World.
Variable random_below : Z -> World -> Z * World.
Variable platform : string.
Variable env : string -> option string.
Variable path : PathModule.

Lemma getJdkDirectory_returns (destinationFolder : string) (w w1 : World)
  (d : string) (evs : list Event) :
  getJdkDirectory fs platform path destinationFolder w = (Return d, w1, evs) ->
  exists first,
    d = if platform =? "darwin" then
          path_join path [destinationFolder; first; "Contents"; "Home"]
        else path_join path [destinationFolder; first].
Proof.
  unfold getJdkDirectory, bind, readdirSync, IS_MACOS.
  destruct (fs w destinationFolder) as [[| [|first rest] | | code] |];
    try discriminate.
  destruct (platform =? "darwin"); cbn; intros H; injection H as <- _ _;
    now exists first.
Qed.

Lemma Forall_retry (P : Event -> Prop) (fn : M World string)
  (steps : nat) (R interval : Z) (exponential : bool) (w : World) :
  (forall e, is_call e = false -> is_publish e = false -> P e) ->
  (forall w', Forall P (events_of (fn w'))) ->
  Forall P (events_of (retry steps fn R interval exponential w)).
Proof.
  intros HP Hfn. revert R interval w.
  induction steps as [|steps IH]; intros R interval w; cbn [retry].
  - constructor.
  - apply Forall_try_catch.
    + apply Forall_bind; [apply Forall_emit; now apply HP|].
      intros _ w1. apply Forall_bind; [apply Hfn | intros; silent].
    + intros e w1. destruct (negb (R =? 0)%Z); [|silent].
      repeat (apply Forall_bind; [apply Forall_emit; now apply HP | intros _ ?]).
      apply IH.
Qed.

Variables release_type version jvm_impl os arch heap_size release : string.

Let allowed : Command -> Prop :=
  allowed_call path platform (tempDirectory platform env path)
    release_type version jvm_impl os arch heap_size release.

(** The three events that publish the installation at [toolPath]. *)
Let publication (toolPath : string) : list Event :=
  [ ExportVariable "JAVA_HOME" toolPath;
    ExportVariable ("JAVA_HOME_" ++ version ++ "_" ++ arch) toolPath;
    AddPath (path_join path [toolPath; "bin"]) ].

(** The shape of every run of the pipeline: events that are no publication,
    whose calls are allowed, and then, if and only if the run returns, the
    publication of one path. *)
Lemma downloadJavaBinary_shape (P : Event -> Prop) (steps : nat) (w : World) :
  (forall e, is_call e = false -> is_publish e = false -> P e) ->
  (forall c, allowed c -> P (Call c)) ->
  let r :=
    downloadJavaBinary fs tc_find host random_below platform env path steps
      release_type version jvm_impl os arch heap_size release w in
  match outcome_of r with
  | Return _ =>
      exists toolPath pre,
        events_of r = (pre ++ publication toolPath)%list /\ Forall P pre
  | _ => Forall P (events_of r)
  end.
Proof.
  intros HP1 HP2. cbv zeta. unfold downloadJavaBinary. rewrite bind_read.
  set (found := tc_find w toolName _ arch).
  match goal with
  | |- context [bind ?m ?k w] => set (acq := m); set (pub := k)
  end.
  assert (Hacq : forall w0, Forall P (events_of (acq w0))).
  { intros w0. subst acq. destruct (Js.truthy found).
    - apply Forall_bind; [apply Forall_emit; now apply HP1 | intros; silent].
    - apply Forall_bind; [apply Forall_emit; now apply HP1 | intros _ w1].
      apply Forall_bind; [apply Forall_emit; now apply HP1 | intros _ w2].
      apply Forall_bind.
      { apply Forall_retry; [exact HP1|]. intros w'.
        apply Forall_call. apply HP2. reflexivity. }
      intros jdkFile w3. apply Forall_bind; [silent|]. intros r w4.
      apply Forall_bind.
      { unfold unzipJavaDownload.
        apply Forall_bind.
        { apply Forall_call. apply HP2. now exists r. }
        intros _ w5. apply Forall_bind; [silent|]. intros stats w6.
        destruct (isFile stats); [|silent].
        apply Forall_bind.
        { unfold extractFiles. apply Forall_bind; [silent|]. intros st w7.
          cbn [object_truthy negb]. destruct (isDirectory st); [silent|].
          unfold IS_WINDOWS. destruct (platform =? "win32") eqn:Hp; cbn.
          - apply Forall_bind; [|intros; silent].
            apply Forall_call. apply HP2. split; [exact Hp | now exists r].
          - apply Forall_bind; [|intros; silent].
            apply Forall_call. apply HP2. split; [exact Hp | now exists r]. }
        intros _ w7. apply Forall_bind_run.
        { unfold getJdkDirectory. apply Forall_bind; [silent|].
          intros listing w8. destruct listing; [silent|].
          destruct (IS_MACOS platform); silent. }
        intros jdkDirectory w8 e8 Hdir. apply Forall_bind; [|intros; silent].
        eapply Forall_impl; [|apply unpackJars_calls_only_unpack200].
        intros e [args ->]. apply HP2.
        apply getJdkDirectory_returns in Hdir as [first ->].
        exists (path_join path [tempDirectory platform env path;
                                 "adoptopenjdk_" ++ Js.of_Z r]), first.
        split; [now exists r | reflexivity]. }
      intros jdkDir w5.
      apply Forall_bind; [apply Forall_emit; now apply HP1 | intros _ w6].
      apply Forall_call. apply HP2. repeat split. }
  specialize (Hacq w).
  destruct (acq w) as [[[toolPath | e |] w1] evs] eqn:E.
  - rewrite (bind_return World acq pub w toolPath w1 evs E).
    subst pub. cbn. exists toolPath, evs. split; [reflexivity | exact Hacq].
  - rewrite (bind_throw World acq pub w e w1 evs E). exact Hacq.
  - rewrite (bind_pending World acq pub w w1 evs E). exact Hacq.
Qed.

Lemma calls_app (xs ys : list Event) : calls (xs ++ ys) = (calls xs ++ calls ys)%list.
Proof. unfold calls. apply flat_map_app. Qed.

Lemma Forall_calls (Q : Command -> Prop) (evs : list Event) :
  Forall (fun e => match e with Call c => Q c | _ => True end) evs ->
  Forall Q (calls evs).
Proof.
  induction 1 as [|e evs He _ IH]; [constructor|].
  destruct e; cbn; trivial. now constructor.
Qed.

(** X10. The environment is published if and only if the install succeeds: a run
    that throws (or has not settled) has exported no variable and added no
    path, and a run that returns has done so exactly once, for one path, as
    its last three events. *)
Theorem downloadJavaBinary_publishes_iff_returns (steps : nat) (w : World) :
  let r :=
    downloadJavaBinary fs tc_find host random_below platform env path steps
      release_type version jvm_impl os arch heap_size release w in
  match outcome_of r with
  | Return _ =>
      exists toolPath pre,
        events_of r
        = (pre ++ [ ExportVariable "JAVA_HOME" toolPath;
                    ExportVariable ("JAVA_HOME_" ++ version ++ "_" ++ arch) toolPath;
                    AddPath (path_join path [toolPath; "bin"]) ])%list
        /\ Forall (fun e => is_publish e = false) pre
  | _ => Forall (fun e => is_publish e = false) (events_of r)
  end.
Proof.
  apply (downloadJavaBinary_shape (fun e => is_publish e = false)).
  - intros e _ H. exact H.
  - intros c _. reflexivity.
Qed.


End PipelineShape.

Section GivingUp.

Variable World : Type.
Variable host : Command -> World -> (Error + string) * World.
Variable c : Command.

Hypothesis always_rejects : forall w, exists e w', host c w = (inl e, w').

Lemma retry_call_always_rejected (n : nat) :
  forall (steps : nat) (interval : Z) (exponential : bool) (w : World),
    n < steps ->
    let r := retry steps (call host c) (Z.of_nat n) interval exponential w in
    outcome_of r = Throw max_retries_error
    /\ calls (events_of r) = repeat c (S n)
    /\ timeouts (events_of r) = backoff exponential interval n
    /\ Forall (fun e => is_publish e = false) (events_of r).
Proof.
  induction n as [|n IH]; intros steps interval exponential w Hsteps;
    (destruct steps as [|steps]; [lia|]);
    destruct (always_rejects w) as (e & w' & Hw);
    assert (Hfn : call host c w = (Throw e, w', [Call c]))
      by (unfold call; now rewrite Hw);
    cbv zeta.
  - rewrite (retry_exhausted World (call host c) _ _ _ _ _ _ _ Hfn).
    repeat split. repeat constructor.
  - rewrite (retry_rejected World (call host c) _ _ _ _ _ _ _ _ Hfn)
      by (rewrite Nat2Z.inj_succ; lia).
    cbv zeta.
    replace (Z.of_nat (S n) - 1)%Z with (Z.of_nat n) by lia.
    destruct (IH steps (if exponential then interval * 2 else interval)%Z
                 exponential w' ltac:(lia)) as (Ho & Hc & Ht & Hp).
    unfold outcome_of, events_of in *. cbn [fst snd].
    repeat split.
    + exact Ho.
    + change (calls (Attempt :: ?l)) with (calls l).
      rewrite !calls_app, Hc. reflexivity.
    + change (timeouts (Attempt :: ?l)) with (timeouts l).
      rewrite !timeouts_app, Ht, backoff_S. reflexivity.
    + repeat constructor. exact Hp.
Qed.

End GivingUp.

Section PipelineOutcomes.

Variable World : Type.
Variable fs : World -> string -> option Stats.
Variable tc_find : World -> string -> string -> string -> string.
Variable host : Command -> World -> (Error + string) * World.
Variable random_below : Z -> World -> Z * World.
Variable platform : string.
Variable env : string -> option string.
Variable path : PathModule.

(** A run on a warm cache, as an equation. *)
Lemma downloadJavaBinary_hit
  (steps : nat) (release_type version jvm_impl os arch heap_size release : string)
  (w : World) (toolPath : string) :
  tc_find w toolName
    (versionSpec_of release_type version jvm_impl os arch heap_size release) arch
  = toolPath ->
  Js.truthy toolPath = true ->
  downloadJavaBinary fs tc_find host random_below platform env path steps
    release_type version jvm_impl os arch heap_size release w
  = (Return tt, w,
     [ Debug ("Tool found in cache " ++ toolPath);
       ExportVariable "JAVA_HOME" toolPath;
       ExportVariable ("JAVA_HOME_" ++ version ++ "_" ++ arch) toolPath;
       AddPath (path_join path [toolPath; "bin"]) ]).
Proof.
  intros Hfind Htruthy. unfold downloadJavaBinary.
  rewrite bind_read, Hfind, Htruthy. reflexivity.
Qed.

(** X12. On a cold cache and a host where every download of the request's URL
    fails, the pipeline downloads eleven times, waits 1, 2, 4, ... 512
    seconds between the attempts, throws the max-retries error, calls
    nothing else and publishes nothing. *)
Theorem downloadJavaBinary_gives_up_after_eleven_downloads
  (steps : nat) (release_type version jvm_impl os arch heap_size release : string)
  (w : World) :
  tc_find w toolName
    (versionSpec_of release_type version jvm_impl os arch heap_size release) arch
  = "" ->
  (forall w', exists e w'',
     host (DownloadTool
             (getAdoptOpenJdkUrl release_type version jvm_impl os arch heap_size
                release)) w' = (inl e, w'')) ->
  10 < steps ->
  let r :=
    downloadJavaBinary fs tc_find host random_below platform env path steps
      release_type version jvm_impl os arch heap_size release w in
  outcome_of r = Throw max_retries_error
  /\ calls (events_of r)
     = repeat
         (DownloadTool
            (getAdoptOpenJdkUrl release_type version jvm_impl os arch heap_size
               release)) 11
  /\ timeouts (events_of r)
     = [1000; 2000; 4000; 8000; 16000; 32000; 64000; 128000; 256000; 512000]%Z
  /\ Forall (fun e => is_publish e = false) (events_of r).
Proof.
  intros Hmiss Hrej Hsteps. cbv zeta.
  pose proof (retry_call_always_rejected World host _ Hrej 10 steps 1000%Z true w
                Hsteps) as H.
  cbv zeta in H. change (Z.of_nat 10) with 10%Z in H.
  unfold downloadJavaBinary. rewrite bind_read, Hmiss. cbn [Js.truthy].
  unfold bind, emit. cbn beta iota.
  destruct (retry steps _ 10 1000 true w) as [[o w1] evs].
  unfold outcome_of, events_of in *. cbn [fst snd] in H.
  destruct H as (-> & Hc & Ht & Hp). cbn [fst snd app].
  repeat split.
  - change (calls (Debug ?a :: Info ?b :: evs)) with (calls evs). exact Hc.
  - change (timeouts (Debug ?a :: Info ?b :: evs)) with (timeouts evs). exact Ht.
  - repeat constructor. exact Hp.
Qed.

End PipelineOutcomes.

Lemma downloadJavaBinary_gives_up_after_eleven_downloads_witness :
  let url :=
    "https://api.adoptopenjdk.net/v3/binary/latest/11/ga/linux/x64/jdk/hotspot/normal/adoptopenjdk" in
  let r :=
    downloadJavaBinary Sample.fs Sample.tc_find offline_host Sample.random_below
      "linux" Sample.env Posix.path 11
      "ga" "11" "hotspot" "linux" "x64" "normal" "latest" Sample.empty in
  outcome_of r = Throw max_retries_error
  /\ calls (events_of r) = repeat (DownloadTool url) 11
  /\ timeouts (events_of r)
     = [1000; 2000; 4000; 8000; 16000; 32000; 64000; 128000; 256000; 512000]%Z
  /\ Forall (fun e => is_publish e = false) (events_of r).
Proof.
  apply (downloadJavaBinary_gives_up_after_eleven_downloads Sample.World Sample.fs
           Sample.tc_find offline_host Sample.random_below "linux" Sample.env
           Posix.path 11 "ga" "11" "hotspot" "linux" "x64" "normal" "latest"
           Sample.empty).
  - reflexivity.
  - intros w'. eexists. exists w'. reflexivity.
  - apply le_n.
Defined.

(** ** Unpacking the download *)

Section UnzipFacts.

Variable World : Type.
Variable fs : World -> string -> option Stats.
Variable host : Command -> World -> (Error + string) * World.
Variable platform : string.
Variable path : PathModule.

(** X9. [unzipJavaDownload] creates the destination folder before it looks at
    the download.  When the folder was created and the normalized path of
    the download is not a regular file, nothing is extracted: a path that
    [stat] cannot reach fails with the system error of [stat] ([ENOENT] when
    there is no such file or directory), anything else that is not a file (a
    directory too) with the is-not-a-file error. *)
Theorem unzipJavaDownload_guards
  (steps : nat) (repoRoot fileEnding destinationFolder : string)
  (w w1 : World) (v : string) :
  host (MkdirP destinationFolder) w = (inr v, w1) ->
  fs w1 (path_normalize path repoRoot) <> Some IsFile ->
  unzipJavaDownload fs host platform path steps repoRoot fileEnding destinationFolder w
  = (Throw
       (match fs w1 (path_normalize path repoRoot) with
        | None => SystemError "ENOENT" "stat" (path_normalize path repoRoot)
        | Some (Unstatable code) =>
            SystemError code "stat" (path_normalize path repoRoot)
        | Some _ =>
            JsError ("JDK argument " ++ path_normalize path repoRoot
                     ++ " is not a file")
        end),
     w1, [Call (MkdirP destinationFolder)]).
Proof.
  intros Hmk Hnot. unfold unzipJavaDownload.
  assert (E : call host (MkdirP destinationFolder) w
              = (Return v, w1, [Call (MkdirP destinationFolder)]))
    by (unfold call; now rewrite Hmk).
  rewrite (bind_return World _ _ w v w1 _ E).
  unfold bind, statSync, throw.
  destruct (fs w1 (path_normalize path repoRoot)) as [[| entries | | code] |];
    try reflexivity.
  now contradiction Hnot.
Qed.

(** When the folder cannot be created, nothing else is tried. *)
Theorem unzipJavaDownload_needs_destination
  (steps : nat) (repoRoot fileEnding destinationFolder : string)
  (w w1 : World) (e : Error) :
  host (MkdirP destinationFolder) w = (inl e, w1) ->
  unzipJavaDownload fs host platform path steps repoRoot fileEnding destinationFolder w
  = (Throw e, w1, [Call (MkdirP destinationFolder)]).
Proof.
  intros Hmk. unfold unzipJavaDownload.
  apply bind_throw. unfold call. now rewrite Hmk.
Qed.

End UnzipFacts.

Lemma unzipJavaDownload_guards_witness :
  unzipJavaDownload Sample.fs Sample.host "linux" Posix.path 4
    "/tmp/../jdk" ".tar.gz" "/tmp/out" Sample.packed
  = (Throw (JsError "JDK argument /jdk is not a file"),
     Sample.add_files [("/tmp/out", IsDirectory [])] Sample.packed,
     [Call (MkdirP "/tmp/out")]).
Proof.
  apply (unzipJavaDownload_guards Sample.World Sample.fs Sample.host "linux"
           Posix.path 4 "/tmp/../jdk" ".tar.gz" "/tmp/out" Sample.packed
           (Sample.add_files [("/tmp/out", IsDirectory [])] Sample.packed) "").
  - reflexivity.
  - discriminate.
Defined.

(** ** The entry point *)

Lemma or_else_default (a d : string) : d <> "" -> Js.or_else a d <> "".
Proof.
  intros Hd. unfold Js.or_else. destruct a; cbn; [exact Hd | discriminate].
Qed.

Lemma truthy_false (s : string) : Js.truthy s = false <-> s = "".
Proof. destruct s; cbn; split; congruence. Qed.

(** The value that [getInput] finds for [java-version]. *)
Lemma read_inputs_eq (env : string -> option string) :
  read_inputs env
  = let v1 := env_value env "INPUT_JAVA_VERSION" in
    let v := if negb (Js.truthy v1) then env_value env "INPUT_JAVA-VERSION" else v1 in
    if negb (Js.truthy v) then inl (input_required_error "java-version")
    else
      inr {| releaseType := Js.or_else (Js.trim (env_value env "INPUT_RELEASE_TYPE")) "ga";
             featureVersion := Js.trim v;
             implementation :=
               Js.or_else (Js.trim (env_value env "INPUT_OPENJDK_IMPL")) "hotspot";
             architecture :=
               Js.or_else (Js.trim (env_value env "INPUT_ARCHITECTURE")) "x64";
             heapSize := Js.or_else (Js.trim (env_value env "INPUT_HEAP_SIZE")) "normal";
             release := Js.or_else (Js.trim (env_value env "INPUT_RELEASE")) "latest" |}.
Proof.
  unfold read_inputs, getInput. cbn [required andb].
  change (input_key "release_type") with "INPUT_RELEASE_TYPE".
  change (input_key_verbatim "release_type") with "INPUT_RELEASE_TYPE".
  change (input_key "java-version") with "INPUT_JAVA_VERSION".
  change (input_key_verbatim "java-version") with "INPUT_JAVA-VERSION".
  change (input_key "openjdk_impl") with "INPUT_OPENJDK_IMPL".
  change (input_key_verbatim "openjdk_impl") with "INPUT_OPENJDK_IMPL".
  change (input_key "architecture") with "INPUT_ARCHITECTURE".
  change (input_key_verbatim "architecture") with "INPUT_ARCHITECTURE".
  change (input_key "heap_size") with "INPUT_HEAP_SIZE".
  change (input_key_verbatim "heap_size") with "INPUT_HEAP_SIZE".
  change (input_key "release") with "INPUT_RELEASE".
  change (input_key_verbatim "release") with "INPUT_RELEASE".
  cbv zeta.
  destruct (negb (Js.truthy (if negb (Js.truthy (env_value env "INPUT_JAVA_VERSION"))
                             then env_value env "INPUT_JAVA-VERSION"
                             else env_value env "INPUT_JAVA_VERSION")));
    [reflexivity|].
  repeat match goal with
         | |- context [if negb (Js.truthy ?x) then ?x else ?x] =>
             replace (if negb (Js.truthy x) then x else x) with x
               by (destruct (negb (Js.truthy x)); reflexivity)
         end.
  reflexivity.
Qed.

(** X14. The only configuration error is a missing [java-version]: the inputs
    are rejected exactly when both [INPUT_JAVA_VERSION] and
    [INPUT_JAVA-VERSION] are unset or empty, and then with the error that
    names [java-version]. *)
Theorem read_inputs_rejects_only_missing_version (env : string -> option string) :
  match read_inputs env with
  | inl e =>
      e = input_required_error "java-version"
      /\ env_value env "INPUT_JAVA_VERSION" = ""
      /\ env_value env "INPUT_JAVA-VERSION" = ""
  | inr _ =>
      env_value env "INPUT_JAVA_VERSION" <> ""
      \/ env_value env "INPUT_JAVA-VERSION" <> ""
  end.
Proof.
  rewrite read_inputs_eq. cbv zeta.
  destruct (env_value env "INPUT_JAVA_VERSION") as [|c1 v1]; cbn.
  - destruct (env_value env "INPUT_JAVA-VERSION") as [|c2 v2]; cbn.
    + repeat split.
    + right. discriminate.
  - left. discriminate.
Qed.

(** X15. Every optional input reaches the installer non-empty (its default stands
    in for a value that is missing, empty or blank), the version is the
    trimmed value of [INPUT_JAVA_VERSION] if that is set and not empty and
    of [INPUT_JAVA-VERSION] otherwise. *)
Theorem read_inputs_fills_defaults (env : string -> option string) (i : InstallRequest) :
  read_inputs env = inr i ->
  releaseType i <> "" /\ implementation i <> "" /\ architecture i <> ""
  /\ heapSize i <> "" /\ release i <> ""
  /\ featureVersion i
     = Js.trim (if Js.truthy (env_value env "INPUT_JAVA_VERSION")
                then env_value env "INPUT_JAVA_VERSION"
                else env_value env "INPUT_JAVA-VERSION")
  /\ (env "INPUT_RELEASE_TYPE" = None -> releaseType i = "ga")
  /\ (env "INPUT_OPENJDK_IMPL" = None -> implementation i = "hotspot")
  /\ (env "INPUT_ARCHITECTURE" = None -> architecture i = "x64")
  /\ (env "INPUT_HEAP_SIZE" = None -> heapSize i = "normal")
  /\ (env "INPUT_RELEASE" = None -> release i = "latest").
Proof.
  rewrite read_inputs_eq. cbv zeta.
  destruct (negb (Js.truthy _)) eqn:Hv; [discriminate|].
  intros H. injection H as <-. cbn [releaseType implementation architecture
                                     heapSize release featureVersion].
  repeat split; try (apply or_else_default; discriminate).
  - destruct (Js.truthy (env_value env "INPUT_JAVA_VERSION")); reflexivity.
  - intros E. unfold env_value. now rewrite E.
  - intros E. unfold env_value. now rewrite E.
  - intros E. unfold env_value. now rewrite E.
  - intros E. unfold env_value. now rewrite E.
  - intros E. unfold env_value. now rewrite E.
Qed.

Lemma read_inputs_fills_defaults_witness :
  let i := {| releaseType := "ga"; featureVersion := "11";
              implementation := "hotspot"; architecture := "x64";
              heapSize := "normal"; release := "latest" |} in
  read_inputs (env_with_version " 11 ") = inr i
  /\ featureVersion i = "11" /\ releaseType i = "ga" /\ release i = "latest".
Proof.
  intros i. split; [reflexivity|].
  pose proof (read_inputs_fills_defaults (env_with_version " 11 ") i eq_refl) as H.
  repeat split; apply H; reflexivity.
Defined.

(** X16. The required check looks at the value before it is trimmed: a version
    that is not empty but blank passes the check, and the installer is given
    the empty version. *)
Theorem read_inputs_accepts_blank_version (env : string -> option string) (v : string) :
  env_value env "INPUT_JAVA_VERSION" = v ->
  v <> "" -> Js.trim v = "" ->
  exists i, read_inputs env = inr i /\ featureVersion i = "".
Proof.
  intros Hv Hne Hblank. rewrite read_inputs_eq, Hv. cbv zeta.
  destruct v as [|c v]; [contradiction|]. cbn [Js.truthy negb].
  eexists. split; [reflexivity|]. exact Hblank.
Qed.

Lemma read_inputs_accepts_blank_version_witness :
  exists i, read_inputs (env_with_version "  ") = inr i /\ featureVersion i = "".
Proof.
  apply (read_inputs_accepts_blank_version (env_with_version "  ") "  ").
  - reflexivity.
  - discriminate.
  - reflexivity.
Defined.

Section RunFacts.

Variable World : Type.
Variable fs : World -> string -> option Stats.
Variable tc_find : World -> string -> string -> string -> string.
Variable host : Command -> World -> (Error + string) * World.
Variable random_below : Z -> World -> Z * World.
Variable platform : string.
Variable env : string -> option string.
Variable path : PathModule.
Variable dirname : string.

Let run' (steps : nat) (w : World) : Outcome unit * World * list Output :=
  run fs tc_find host random_below platform env path dirname steps w.

Lemma not_in_installer (o : Output) (evs : list Event) :
  (forall e, o <> Installer e) -> ~ In o (map Installer evs).
Proof.
  intros Ho H. apply in_map_iff in H as (e & <- & _). now apply (Ho e).
Qed.

(** The run of the installer on the request [i]. *)
Let install (steps : nat) (w : World) (i : InstallRequest)
  : Outcome unit * World * list Event :=
  getJava fs tc_find host random_below platform env path steps
    (releaseType i) (featureVersion i) (implementation i)
    (architecture i) (heapSize i) (release i) w.

(** X17. [run] never throws.  A failure is reported once, as the last output,
    and it is the message of the error that was thrown, by the reading of
    the inputs or by the installer, after a run that has published nothing;
    the matcher line is printed once, as the last output, after a run of
    the installer that has returned and has ended with the publication of
    one path. *)
Theorem run_reports_the_outcome (steps : nat) (w : World) :
  (forall e, fst (fst (run' steps w)) <> Throw e)
  /\ (forall m,
        In (SetFailed m) (snd (run' steps w)) ->
        exists error pre,
          m = error_message error
          /\ snd (run' steps w)
             = (map Installer pre ++ [SetFailed (error_message error)])%list
          /\ Forall (fun e => is_publish e = false) pre
          /\ match read_inputs env with
             | inl e => e = error /\ pre = []
             | inr i =>
                 outcome_of (install steps w i) = Throw error
                 /\ events_of (install steps w i) = pre
             end)
  /\ (forall line,
        In (ConsoleLog line) (snd (run' steps w)) ->
        line = add_matcher_line path dirname
        /\ exists i toolPath pre,
             read_inputs env = inr i
             /\ outcome_of (install steps w i) = Return tt
             /\ events_of (install steps w i)
                = (pre ++ [ ExportVariable "JAVA_HOME" toolPath;
                            ExportVariable
                              ("JAVA_HOME_" ++ featureVersion i ++ "_"
                                 ++ architecture i) toolPath;
                            AddPath (path_join path [toolPath; "bin"]) ])%list
             /\ snd (run' steps w)
                = (map Installer (events_of (install steps w i))
                     ++ [ConsoleLog line])%list
             /\ Forall (fun e => is_publish e = false) pre).
Proof.
  unfold run', run, install.
  destruct (read_inputs env) as [err | i]; cbn [fst snd].
  - split; [discriminate | split].
    + intros m [H | []]. injection H as <-. exists err, [].
      repeat split. constructor.
    + intros line [H | []]. discriminate.
  - pose proof (downloadJavaBinary_shape World fs tc_find host random_below platform
                  env path (releaseType i) (featureVersion i) (implementation i)
                  (os platform) (architecture i) (heapSize i) (release i)
                  (fun e => is_publish e = false) steps w
                  (fun e _ H => H) (fun c _ => eq_refl)) as Hshape.
    cbv zeta in Hshape. unfold getJava.
    destruct (downloadJavaBinary _ _ _ _ _ _ _ _ _ _ _ _ _ _ _ w)
      as [[[u | e |] w1] evs] eqn:E; cbn [fst snd outcome_of events_of] in *.
    + destruct Hshape as (toolPath & pre & -> & Hpre).
      split; [discriminate | split].
      * intros m H. apply in_app_or in H as [H | [H | []]]; [|discriminate].
        exfalso. revert H. apply not_in_installer. discriminate.
      * intros line H. apply in_app_or in H as [H | [H | []]].
        { exfalso. revert H. apply not_in_installer. discriminate. }
        injection H as <-. split; [reflexivity|].
        exists i, toolPath, pre. rewrite E. destruct u.
        repeat split. exact Hpre.
    + split; [discriminate | split].
      * intros m H. apply in_app_or in H as [H | [H | []]].
        { exfalso. revert H. apply not_in_installer. discriminate. }
        injection H as <-. exists e, evs. repeat split. exact Hshape.
      * intros line H. apply in_app_or in H as [H | [H | []]]; [|discriminate].
        exfalso. revert H. apply not_in_installer. discriminate.
    + split; [discriminate | split].
      * intros m H. exfalso. revert H. apply not_in_installer. discriminate.
      * intros line H. exfalso. revert H. apply not_in_installer. discriminate.
Qed.

(** X18. Without a version under [INPUT_JAVA_VERSION] or [INPUT_JAVA-VERSION],
    [run] reports the missing input and does nothing else: the installer is
    not started and the world is left as it was. *)
Theorem run_without_version (steps : nat) (w : World) :
  env_value env "INPUT_JAVA_VERSION" = "" ->
  env_value env "INPUT_JAVA-VERSION" = "" ->
  run' steps w
  = (Return tt, w, [SetFailed "Input required and not supplied: java-version"]).
Proof.
  intros H1 H2. unfold run', run. rewrite read_inputs_eq, H1, H2. reflexivity.
Qed.

(** X19. With the request's installation in the tool cache, [run] publishes the
    cached path, prints the matcher line, calls no collaborator and leaves
    the world as it was. *)
Theorem run_on_warm_cache (steps : nat) (w : World) (i : InstallRequest)
  (toolPath : string) :
  read_inputs env = inr i ->
  tc_find w "AdoptOpenJDK" (request_versionSpec (os platform) i) (architecture i)
  = toolPath ->
  Js.truthy toolPath = true ->
  run' steps w
  = (Return tt, w,
     [ Installer (Debug ("Tool found in cache " ++ toolPath));
       Installer (ExportVariable "JAVA_HOME" toolPath);
       Installer
         (ExportVariable
            ("JAVA_HOME_" ++ featureVersion i ++ "_" ++ architecture i) toolPath);
       Installer (AddPath (path_join path [toolPath; "bin"]));
       ConsoleLog (add_matcher_line path dirname) ]).
Proof.
  intros Hin Hfind Htruthy. unfold run', run, getJava. rewrite Hin.
  rewrite (downloadJavaBinary_hit World fs tc_find host random_below platform env
             path steps _ _ _ _ _ _ _ w toolPath Hfind Htruthy).
  reflexivity.
Qed.

End RunFacts.

Lemma run_reports_the_outcome_witness :
  (exists error pre,
     "Unable to download JDK, max retries reached" = error_message error
     /\ snd (run Sample.fs Sample.tc_find offline_host Sample.random_below "linux"
               (env_with_version "11") Posix.path "/action/lib" 11 Sample.empty)
        = (map Installer pre ++ [SetFailed (error_message error)])%list
     /\ Forall (fun e => is_publish e = false) pre
     /\ outcome_of
          (getJava Sample.fs Sample.tc_find offline_host Sample.random_below "linux"
             (env_with_version "11") Posix.path 11
             "ga" "11" "hotspot" "x64" "normal" "latest" Sample.empty)
        = Throw error
     /\ events_of
          (getJava Sample.fs Sample.tc_find offline_host Sample.random_below "linux"
             (env_with_version "11") Posix.path 11
             "ga" "11" "hotspot" "x64" "normal" "latest" Sample.empty)
        = pre)
  /\ ("##[add-matcher]/action/.github/java.json"
      = add_matcher_line Posix.path "/action/lib"
      /\ exists i toolPath pre,
           read_inputs (env_with_version "11") = inr i
           /\ outcome_of
                (getJava Sample.fs Sample.tc_find Sample.host Sample.random_below
                   "linux" (env_with_version "11") Posix.path 3
                   (releaseType i) (featureVersion i) (implementation i)
                   (architecture i) (heapSize i) (release i) Sample.warm)
              = Return tt
           /\ events_of
                (getJava Sample.fs Sample.tc_find Sample.host Sample.random_below
                   "linux" (env_with_version "11") Posix.path 3
                   (releaseType i) (featureVersion i) (implementation i)
                   (architecture i) (heapSize i) (release i) Sample.warm)
              = (pre ++ [ ExportVariable "JAVA_HOME" toolPath;
                          ExportVariable
                            ("JAVA_HOME_" ++ featureVersion i ++ "_"
                               ++ architecture i) toolPath;
                          AddPath (path_join Posix.path [toolPath; "bin"]) ])%list
           /\ snd (run Sample.fs Sample.tc_find Sample.host Sample.random_below
                     "linux" (env_with_version "11") Posix.path "/action/lib" 3
                     Sample.warm)
              = (map Installer
                   (events_of
                      (getJava Sample.fs Sample.tc_find Sample.host
                         Sample.random_below "linux" (env_with_version "11")
                         Posix.path 3
                         (releaseType i) (featureVersion i) (implementation i)
                         (architecture i) (heapSize i) (release i) Sample.warm))
                   ++ [ConsoleLog "##[add-matcher]/action/.github/java.json"])%list
           /\ Forall (fun e => is_publish e = false) pre).
Proof.
  split.
  - apply (run_reports_the_outcome Sample.World Sample.fs Sample.tc_find offline_host
             Sample.random_below "linux" (env_with_version "11") Posix.path
             "/action/lib" 11 Sample.empty).
    vm_compute. repeat first [left; reflexivity | right].
  - apply (run_reports_the_outcome Sample.World Sample.fs Sample.tc_find Sample.host
             Sample.random_below "linux" (env_with_version "11") Posix.path
             "/action/lib" 3 Sample.warm).
    vm_compute. do 4 right. left. reflexivity.
Defined.

Lemma run_without_version_witness :
  run Sample.fs Sample.tc_find Sample.host Sample.random_below "linux"
    Sample.env Posix.path "/action/lib" 3 (Sample.flaky 2)
  = (Return tt, Sample.flaky 2,
     [SetFailed "Input required and not supplied: java-version"]).
Proof.
  apply (run_without_version Sample.World Sample.fs Sample.tc_find Sample.host
           Sample.random_below "linux" Sample.env Posix.path "/action/lib"
           3 (Sample.flaky 2)); reflexivity.
Defined.

Lemma run_on_warm_cache_witness :
  run Sample.fs Sample.tc_find Sample.host Sample.random_below "linux"
    (env_with_version " 11 ") Posix.path "/action/lib" 3 Sample.warm
  = (Return tt, Sample.warm,
     [ Installer (Debug "Tool found in cache /cache/AdoptOpenJDK/11/x64");
       Installer (ExportVariable "JAVA_HOME" "/cache/AdoptOpenJDK/11/x64");
       Installer (ExportVariable "JAVA_HOME_11_x64" "/cache/AdoptOpenJDK/11/x64");
       Installer (AddPath "/cache/AdoptOpenJDK/11/x64/bin");
       ConsoleLog "##[add-matcher]/action/.github/java.json" ]).
Proof.
  apply (run_on_warm_cache Sample.World Sample.fs Sample.tc_find Sample.host
           Sample.random_below "linux" (env_with_version " 11 ") Posix.path
           "/action/lib" 3 Sample.warm
           {| releaseType := "ga"; featureVersion := "11";
              implementation := "hotspot"; architecture := "x64";
              heapSize := "normal"; release := "latest" |}
           "/cache/AdoptOpenJDK/11/x64");
    reflexivity.
Defined.

(** ** The platform *)

(** The OS string of the URL is one of three, and it is [windows] exactly on
    the platform on which the pipeline treats the download as a zip, and
    [mac] exactly on the platform on which it looks for the nested home. *)
Lemma getOsString_classifies (platform : string) :
  (getOsString platform = "windows" <-> IS_WINDOWS platform = true)
  /\ (getOsString platform = "mac" <-> IS_MACOS platform = true)
  /\ (getOsString platform = "linux"
      <-> IS_WINDOWS platform = false /\ IS_MACOS platform = false).
Proof.
  unfold getOsString, IS_WINDOWS, IS_MACOS.
  destruct (String.eqb_spec platform "win32") as [-> | N1]; cbn.
  - repeat split; intros; try discriminate; try reflexivity.
    destruct H; discriminate.
  - destruct (platform =? "darwin"); repeat split; intros; try discriminate;
      try reflexivity.
    destruct H; discriminate.
Qed.

(** ** The pipeline on a cold cache *)

Section ColdCache.

Variable World : Type.
Variable fs : World -> string -> option Stats.
Variable tc_find : World -> string -> string -> string -> string.
Variable host : Command -> World -> (Error + string) * World.
Variable random_below : Z -> World -> Z * World.
Variable platform : string.
Variable env : string -> option string.
Variable path : PathModule.

Lemma bind_returns {A B} (m : M World A) (k : A -> M World B) w b w2 evs :
  bind m k w = (Return b, w2, evs) ->
  exists a w1 e1 e2,
    m w = (Return a, w1, e1) /\ k a w1 = (Return b, w2, e2)
    /\ evs = (e1 ++ e2)%list.
Proof.
  unfold bind. destruct (m w) as [[[a | e |] w1] e1]; try discriminate.
  destruct (k a w1) as [[r w2'] e2] eqn:Ek. intros H. injection H as -> -> <-.
  now exists a, w1, e1, e2.
Qed.

Lemma retry_returns_after_call (c : Command) steps R interval exponential w v w1 evs :
  retry steps (call host c) R interval exponential w = (Return v, w1, evs) ->
  In (Call c) evs.
Proof.
  revert R interval w evs.
  induction steps as [|steps IH]; intros R interval w evs H; [discriminate|].
  destruct (call host c w) as [[[v0 | e |] w0] evs0] eqn:Hfn.
  - rewrite (retry_resolved World _ _ _ _ _ _ _ _ _ Hfn) in H.
    injection H as _ _ <-. right.
    unfold call in Hfn. destruct (host c w) as [[e | v'] w']; injection Hfn as _ _ <-;
      now left.
  - destruct (Z.eq_dec R 0) as [-> | HR0].
    + rewrite (retry_exhausted World _ _ _ _ _ _ _ _ Hfn) in H. discriminate.
    + rewrite (retry_rejected World _ _ _ _ _ _ _ _ _ Hfn HR0) in H. cbv zeta in H.
      destruct (retry steps _ (R - 1) _ exponential w0) as [[o w2] evs2] eqn:E.
      unfold outcome_of, world_of, events_of in H. cbn [fst snd] in H.
      injection H as -> -> <-.
      apply in_cons. apply in_or_app. right.
      unfold grace_period. cbn [app]. repeat apply in_cons.
      now apply (IH _ _ _ _ E).
  - unfold call in Hfn. destruct (host c w) as [[e | v'] w']; discriminate.
Qed.

(** X13. On a cold cache, a run that returns has downloaded from the URL of the
    request, has stored as its last call, under the key and the architecture
    it probed with, and has published the path that the store returned. *)
Theorem downloadJavaBinary_publishes_what_was_stored
  (steps : nat) (release_type version jvm_impl os arch heap_size release : string)
  (w w2 : World) (evs : list Event) :
  tc_find w toolName
    (versionSpec_of release_type version jvm_impl os arch heap_size release) arch
  = "" ->
  downloadJavaBinary fs tc_find host random_below platform env path steps
    release_type version jvm_impl os arch heap_size release w
  = (Return tt, w2, evs) ->
  exists jdkDir toolPath w1 pre,
    host (CacheDir jdkDir toolName
            (versionSpec_of release_type version jvm_impl os arch heap_size release)
            arch) w1
    = (inr toolPath, w2)
    /\ evs
       = (pre
            ++ [ Call (CacheDir jdkDir toolName
                         (versionSpec_of release_type version jvm_impl os arch
                            heap_size release) arch);
                 ExportVariable "JAVA_HOME" toolPath;
                 ExportVariable ("JAVA_HOME_" ++ version ++ "_" ++ arch) toolPath;
                 AddPath (path_join path [toolPath; "bin"]) ])%list
    /\ In (Call (DownloadTool
                   (getAdoptOpenJdkUrl release_type version jvm_impl os arch
                      heap_size release))) pre.
Proof.
  intros Hmiss E. unfold downloadJavaBinary in E.
  rewrite bind_read, Hmiss in E. cbn [Js.truthy] in E.
  apply bind_returns in E as (toolPath & w1 & e1 & e2 & Eacq & Epub & ->).
  unfold bind, emit in Epub. cbn in Epub. injection Epub as <- <-.
  apply bind_returns in Eacq as ([] & wa & ea & e3 & Ea & Eacq & ->).
  injection Ea as <- <-.
  apply bind_returns in Eacq as ([] & wb & eb & e4 & Eb & Eacq & ->).
  injection Eb as <- <-.
  apply bind_returns in Eacq as (jdkFile & wc & ec & e5 & Eretry & Eacq & ->).
  apply retry_returns_after_call in Eretry.
  apply bind_returns in Eacq as (r & wd & ed & e6 & _ & Eacq & ->).
  apply bind_returns in Eacq as (jdkDir & we & ee & e7 & _ & Eacq & ->).
  apply bind_returns in Eacq as ([] & wf & ef & e8 & Ef & Estore & ->).
  injection Ef as <- <-.
  unfold call in Estore.
  destruct (host (CacheDir jdkDir _ _ arch) we) as [[e | p] w'] eqn:Eh;
    [discriminate|]. injection Estore as -> -> <-.
  exists jdkDir, toolPath, we.
  match goal with
  | |- context [(?a ++ ?b ++ ec ++ ed ++ ee ++ ?d ++ [Call _])%list] =>
      exists (a ++ b ++ ec ++ ed ++ ee ++ d)%list
  end.
  split; [exact Eh | split].
  - repeat rewrite <- app_assoc. reflexivity.
  - apply in_or_app. right. apply in_or_app. right.
    apply in_or_app. left. exact Eretry.
Qed.

End ColdCache.

Lemma downloadJavaBinary_publishes_what_was_stored_witness :
  let r :=
    downloadJavaBinary Sample.fs Sample.tc_find Sample.host Sample.random_below
      "linux" Sample.env Posix.path 16
      "ga" "11" "hotspot" "linux" "x64" "normal" "latest" Sample.empty in
  exists jdkDir toolPath w1 pre,
    Sample.host
      (CacheDir jdkDir "AdoptOpenJDK" "1.0.0-ga-11-hotspot-normal-latest" "x64") w1
    = (inr toolPath, world_of r)
    /\ events_of r
       = (pre
            ++ [ Call (CacheDir jdkDir "AdoptOpenJDK"
                         "1.0.0-ga-11-hotspot-normal-latest" "x64");
                 ExportVariable "JAVA_HOME" toolPath;
                 ExportVariable "JAVA_HOME_11_x64" toolPath;
                 AddPath (Posix.join [toolPath; "bin"]) ])%list
    /\ In (Call (DownloadTool
                   "https://api.adoptopenjdk.net/v3/binary/latest/11/ga/linux/x64/jdk/hotspot/normal/adoptopenjdk"))
         pre.
Proof.
  intros r.
  apply (downloadJavaBinary_publishes_what_was_stored Sample.World Sample.fs
           Sample.tc_find Sample.host Sample.random_below "linux" Sample.env
           Posix.path 16 "ga" "11" "hotspot" "linux" "x64" "normal" "latest"
           Sample.empty (world_of r) (events_of r));
    reflexivity.
Defined.

(** ** The walk over a directory *)

Section WalkSteps.

Variable World : Type.
Variable fs : World -> string -> option Stats.
Variable host : Command -> World -> (Error + string) * World.
Variable platform : string.
Variable path : PathModule.

Lemma bind_silent {A B} (m : M World A) (k : A -> M World B) w a :
  m w = (Return a, w, []) -> bind m k w = k a w.
Proof.
  intros H. unfold bind. rewrite H. now destruct (k a w) as [[r w2] evs2].
Qed.

Lemma for_each_map {A B} (f : A -> B) (xs : list A) (body : B -> M World unit) w :
  for_each (map f xs) body w = for_each xs (fun x => body (f x)) w.
Proof.
  revert w. induction xs as [|x xs IH]; intros w; cbn [map for_each];
    [reflexivity|].
  unfold bind. destruct (body (f x) w) as [[[[] | e |] w1] evs1]; trivial.
  now rewrite IH.
Qed.

(** X8. Called on a directory with [n] entries, [unpackJars] walks, in order,
    the paths [path.join(fsPath, "0")], ..., [path.join(fsPath, "n-1")]: the
    indices of the listing, not its entries, of which only the number
    counts. *)
Theorem unpackJars_walks_the_indices
  (steps : nat) (fsPath javaBinPath : string) (entries : list string) (w : World) :
  fs w fsPath = Some (IsDirectory entries) ->
  unpackJars fs host platform path (S steps) fsPath javaBinPath w
  = for_each
      (map (fun i => path_join path [fsPath; Js.of_nat i])
         (seq 0 (List.length entries)))
      (fun curPath => unpackJars fs host platform path steps curPath javaBinPath)
      w.
Proof.
  intros Hdir. cbn [unpackJars].
  rewrite (bind_silent (existsSync fs fsPath) _ w true)
    by (unfold existsSync, read; now rewrite Hdir).
  rewrite (bind_silent (lstatSync fs fsPath) _ w (IsDirectory entries))
    by (unfold lstatSync; now rewrite Hdir).
  cbn [isDirectory].
  rewrite (bind_silent (readdirSync fs fsPath) _ w entries)
    by (unfold readdirSync; now rewrite Hdir).
  unfold array_keys. rewrite !for_each_map. reflexivity.
Qed.

End WalkSteps.

Lemma unpackJars_walks_the_indices_witness :
  unpackJars Sample.fs Sample.host "linux" Posix.path 2 "/jdk" "/jdk/bin" Sample.packed
  = for_each
      (map (fun i => Posix.join ["/jdk"; Js.of_nat i]) (seq 0 1))
      (fun curPath =>
         unpackJars Sample.fs Sample.host "linux" Posix.path 1 curPath "/jdk/bin")
      Sample.packed.
Proof.
  apply (unpackJars_walks_the_indices Sample.World Sample.fs Sample.host "linux"
           Posix.path 1 "/jdk" "/jdk/bin" ["rt.pack"] Sample.packed).
  reflexivity.
Defined.

(** ** The platform and the pipeline *)

Section PlatformFacts.

Variable World : Type.
Variable fs : World -> string -> option Stats.
Variable tc_find : World -> string -> string -> string -> string.
Variable host : Command -> World -> (Error + string) * World.
Variable random_below : Z -> World -> Z * World.
Variable platform : string.
Variable env : string -> option string.
Variable path : PathModule.

(** X3. The OS that [getJava] asks for agrees with the platform tests of the
    pipeline: every download is that of the URL built with
    [getOsString platform], which is [windows] exactly on [win32], [mac]
    exactly on [darwin] and [linux] otherwise, and an archive is extracted
    as a zip only when that OS string is [windows] and as a tar only when
    it is not. *)
Theorem getJava_asks_for_the_os_of_the_platform
  (steps : nat) (release_type version jvm_impl arch heap_size release : string)
  (w : World) :
  (getOsString platform = "windows" <-> platform = "win32")
  /\ (getOsString platform = "mac" <-> platform = "darwin")
  /\ (getOsString platform = "linux"
      <-> platform <> "win32" /\ platform <> "darwin")
  /\ Forall
       (fun c =>
          match c with
          | DownloadTool url =>
              url = getAdoptOpenJdkUrl release_type version jvm_impl
                      (getOsString platform) arch heap_size release
          | ExtractZip _ _ => getOsString platform = "windows"
          | ExtractTar _ _ => getOsString platform <> "windows"
          | Extract7z _ _ => False
          | _ => True
          end)
       (calls
          (events_of
             (getJava fs tc_find host random_below platform env path steps
                release_type version jvm_impl arch heap_size release w))).
Proof.
  assert (Hw : getOsString platform = "windows" <-> platform = "win32").
  { unfold getOsString.
    destruct (String.eqb_spec platform "win32") as [-> | N]; [now split|].
    destruct (platform =? "darwin"); split; intros H; try discriminate;
      contradiction. }
  assert (Hm : getOsString platform = "mac" <-> platform = "darwin").
  { unfold getOsString.
    destruct (String.eqb_spec platform "win32") as [-> | N];
      [split; discriminate|].
    destruct (String.eqb_spec platform "darwin") as [-> | N2]; [now split|].
    split; intros H; try discriminate; contradiction. }
  split; [exact Hw | split; [exact Hm | split]].
  - unfold getOsString.
    destruct (String.eqb_spec platform "win32") as [-> | N].
    + split; [discriminate | intros [H _]; contradiction].
    + destruct (String.eqb_spec platform "darwin") as [-> | N2].
      * split; [discriminate | intros [_ H]; contradiction].
      * now split.
  - unfold getJava.
    pose proof (downloadJavaBinary_shape World fs tc_find host random_below platform
                  env path release_type version jvm_impl (os platform) arch
                  heap_size release
                  (fun e =>
                     match e with
                     | Call c =>
                         allowed_call path platform (tempDirectory platform env path)
                           release_type version jvm_impl (os platform) arch
                           heap_size release c
                     | _ => True
                     end)
                  steps w) as H.
    cbv zeta in H.
    assert (H1 : forall e, is_call e = false -> is_publish e = false ->
                           match e with
                           | Call c =>
                               allowed_call path platform
                                 (tempDirectory platform env path)
                                 release_type version jvm_impl (os platform) arch
                                 heap_size release c
                           | _ => True
                           end)
      by (intros []; intros; trivial; discriminate).
    specialize (H H1 (fun c Hc => Hc)).
    assert (Hall : Forall
                     (allowed_call path platform (tempDirectory platform env path)
                        release_type version jvm_impl (os platform) arch
                        heap_size release)
                     (calls
                        (events_of
                           (downloadJavaBinary fs tc_find host random_below platform
                              env path steps release_type version jvm_impl
                              (os platform) arch heap_size release w)))).
    { destruct (outcome_of _).
      - destruct H as (toolPath & pre & -> & Hpre).
        rewrite calls_app. apply Forall_app. split.
        + now apply Forall_calls.
        + constructor.
      - now apply Forall_calls.
      - now apply Forall_calls. }
    eapply Forall_impl; [|exact Hall].
    intros c Hc.
    destruct c as [url | file dest | file dest | | | |]; cbn in Hc; trivial.
    + destruct Hc as [Hp _]. intros Habs. apply Hw in Habs.
      apply String.eqb_neq in Hp. contradiction.
    + destruct Hc as [Hp _]. apply Hw. now apply String.eqb_eq.
Qed.

End PlatformFacts.
